(** * The node weight cache of contour (package v3) and the weighted
    endpoint builders (internal/envoy/v3/endpoint.go)

  A shallow embedding of the Go code: unsigned integers are [N] with the
  conversions between widths written out, Go maps are [gmap]s (a nil map is
  [None]), the [interface{}] payload of an event is a closed variant, and
  the two effects of the handlers, logging and calling the next handler, are
  threaded through the cache value. *)

From Stdlib Require Import NArith Ascii String List Bool Lia.
From stdpp Require Import base option gmap strings list fin_maps.

Local Open Scope N_scope.

(** ** Go's [strconv.ParseUint], at base 10 *)

Module strconv.

(** [*NumError]'s [Err] field. *)
Inductive NumError : Type :=
| ErrSyntax
| ErrRange
| ErrBitSize.

Definition maxUint64 : N := 2 ^ 64 - 1.

(** [uint64] arithmetic wraps around; subtracting 1 is adding
    [maxUint64]. *)
Definition wrap64 (n : N) : N := n mod 2 ^ 64.

(** [lower(c)] is [c | ('x' - 'X')]. *)
Definition lower (c : N) : N := N.lor c 32.

(** The digit switch in the loop body at base 10 (the ['_'] arm needs base 0
    and is never taken); [None] is the [default] arm. *)
Definition digit (c : N) : option N :=
  if (48 <=? c) && (c <=? 57) then Some (c - 48)
  else if (97 <=? lower c) && (lower c <=? 122) then Some (lower c - 97 + 10)
  else None.

(** The [for _, c := range []byte(s)] loop, [n] being the accumulator. *)
Fixpoint parseLoop (base cutoff maxVal : N) (bs : list N) (n : N)
  : N * option NumError :=
  match bs with
  | [] => (n, None)
  | c :: rest =>
      match digit c with
      | None => (0, Some ErrSyntax)
      | Some d =>
          if base <=? d then (0, Some ErrSyntax)
          else if cutoff <=? n then (maxVal, Some ErrRange)
          else
            let n' := wrap64 (n * base) in
            let n1 := wrap64 (n' + d) in
            if (n1 <? n') || (maxVal <? n1) then (maxVal, Some ErrRange)
            else parseLoop base cutoff maxVal rest n1
      end
  end.

Definition bytes (s : string) : list N :=
  map N_of_ascii (list_ascii_of_string s).

(** [ParseUint(s, 10, bitSize)]: the value and the error, as Go returns
    them.  A [bitSize] of 0 stands for [IntSize], 64 here. *)
Definition ParseUint (s : string) (bitSize : N) : N * option NumError :=
  match bytes s with
  | [] => (0, Some ErrSyntax)
  | bs =>
      let base := 10 in
      if 64 <? bitSize then (0, Some ErrBitSize)
      else
        let bitSize := if bitSize =? 0 then 64 else bitSize in
        let cutoff := maxUint64 / 10 + 1 in
        let maxVal := wrap64 (wrap64 (N.shiftl 1 bitSize) + maxUint64) in
        parseLoop base cutoff maxVal bs 0
  end.

End strconv.

(** ** The Kubernetes objects the handlers see *)

Module metav1.

(** The fields of [ObjectMeta] kept here; a Go map may be nil. *)
Record ObjectMeta : Type := {
  Name : string;
  Namespace : string;
  Labels : option (gmap string string);
  Annotations : option (gmap string string);
}.

#[global] Instance ObjectMeta_eq_dec : EqDecision ObjectMeta.
Proof. solve_decision. Defined.

End metav1.

Module v1.
Import metav1.

Record NodeSpec : Type := {
  PodCIDR : string;
  ProviderID : string;
  Unschedulable : bool;
}.

Record NodeStatus : Type := {
  Phase : string;
  Addresses : list string;
}.

Record Node : Type := {
  ObjectMeta : metav1.ObjectMeta;
  Spec : NodeSpec;
  Status : NodeStatus;
}.

(** The unrelated resource type of the tests. *)
Record Endpoints : Type := {
  Endpoints_ObjectMeta : metav1.ObjectMeta;
}.

#[global] Instance NodeSpec_eq_dec : EqDecision NodeSpec.
Proof. solve_decision. Defined.

#[global] Instance NodeStatus_eq_dec : EqDecision NodeStatus.
Proof. solve_decision. Defined.

#[global] Instance Node_eq_dec : EqDecision Node.
Proof. solve_decision. Defined.

#[global] Instance Endpoints_eq_dec : EqDecision Endpoints.
Proof. solve_decision. Defined.

End v1.

(** The dynamic value behind the [interface{}] of an event: the nil
  interface, a [*v1.Node], a [*v1.Endpoints], or a
  [cache.DeletedFinalStateUnknown] holding a key and another such value.
  Pointers to objects are not nil. *)
Inductive Object : Type :=
| Nil
| NodePtr (node : v1.Node)
| EndpointsPtr (ep : v1.Endpoints)
| DeletedFinalStateUnknown (Key : string) (Obj : Object).

(** ** client-go's handler interface *)

Module cache.

(** [cache.ResourceEventHandler]: a handler is a value of [H] that each
    callback may change. *)
Class ResourceEventHandler (H : Type) : Type := {
  OnAdd : Object -> H -> H;
  OnUpdate : Object -> Object -> H -> H;
  OnDelete : Object -> H -> H;
}.

End cache.

(** ** go-cmp *)

Module cmp.

(** [cmp.Equal(x, y, cmpopts.IgnoreFields(v1.Node{}, "Status"))] for a [y]
    that is a [*v1.Node]: values of different dynamic types are unequal,
    two nodes are compared field by field with [Status] left out (a nil
    map and an empty one differ). *)
Definition EqualIgnoringStatus (x : Object) (y : v1.Node) : bool :=
  match x with
  | NodePtr x =>
      bool_decide (v1.ObjectMeta x = v1.ObjectMeta y)
      && bool_decide (v1.Spec x = v1.Spec y)
  | _ => false
  end.

End cmp.

(** ** The node weight cache *)

(** What [logrus.FieldLogger.Errorf] is given: the format and the value
    printed by both verbs. *)
Record LogEntry : Type := Errorf_entry {
  Format : string;
  Arg : Object;
}.

(** The struct.  [FieldLogger] holds what has been logged, oldest first;
    [Next] is the handler behind the interface, [None] for a nil one.  The
    weights are [uint32]s; no result below needs their bound.  The mutex is
    left out: the callbacks are run one at a time. *)
Record NodeWeightCache (H : Type) : Type := {
  FieldLogger : list LogEntry;
  Next : option H;
  NodeWeightAnnotation : string;
  DefaultNodeWeight : N;
  nodeWeights : gmap string N;
}.

Arguments FieldLogger {H} _.
Arguments Next {H} _.
Arguments NodeWeightAnnotation {H} _.
Arguments DefaultNodeWeight {H} _.
Arguments nodeWeights {H} _.

(** Conversion of a [uint64] to [uint32]. *)
Definition uint32 (n : N) : N := n mod 2 ^ 32.

(** Reading a [map[string]T]: a nil map has no key. *)
Definition mapIndex {T : Type} (m : option (gmap string T)) (k : string)
  : option T :=
  match m with
  | Some m => m !! k
  | None => None
  end.

Definition normalizeWeight (weight defaultWeight : N) : N :=
  if 128 <? weight then defaultWeight else weight.

Definition resolveNodeWeight (meta : metav1.ObjectMeta)
  (annotationName : string) (defaultValue : N) : N :=
  let weight :=
    match mapIndex (metav1.Annotations meta) annotationName with
    | Some annotationStringValue =>
        match strconv.ParseUint annotationStringValue 32 with
        | (nweight, None) => uint32 nweight
        | (_, Some _) => defaultValue
        end
    | None => defaultValue
    end in
  normalizeWeight weight defaultValue.

Section NodeWeightCache.

Context {H : Type} `{!cache.ResourceEventHandler H}.

Definition NewNodeWeightCache (nodeWeightAnnotation : string)
  (defaultNodeWeight : N) : NodeWeightCache H :=
  {| FieldLogger := [];
     Next := None;
     NodeWeightAnnotation := nodeWeightAnnotation;
     DefaultNodeWeight := defaultNodeWeight;
     nodeWeights := ∅ |}.

(** [cache.Next = resourceHandler], as the test sets it. *)
Definition setNext (next : option H) (c : NodeWeightCache H)
  : NodeWeightCache H :=
  {| FieldLogger := FieldLogger c;
     Next := next;
     NodeWeightAnnotation := NodeWeightAnnotation c;
     DefaultNodeWeight := DefaultNodeWeight c;
     nodeWeights := nodeWeights c |}.

Definition setNodeWeights (m : gmap string N) (c : NodeWeightCache H)
  : NodeWeightCache H :=
  {| FieldLogger := FieldLogger c;
     Next := Next c;
     NodeWeightAnnotation := NodeWeightAnnotation c;
     DefaultNodeWeight := DefaultNodeWeight c;
     nodeWeights := m |}.

Definition Errorf (format : string) (arg : Object) (c : NodeWeightCache H)
  : NodeWeightCache H :=
  {| FieldLogger := FieldLogger c ++ [Errorf_entry format arg];
     Next := Next c;
     NodeWeightAnnotation := NodeWeightAnnotation c;
     DefaultNodeWeight := DefaultNodeWeight c;
     nodeWeights := nodeWeights c |}.

(** [c.nodeWeights[nodeName]]: the zero value when the key is missing. *)
Definition GetWeightOfNode (c : NodeWeightCache H) (nodeName : string) : N :=
  let nodeWeight := default 0 (nodeWeights c !! nodeName) in
  if nodeWeight =? 0 then DefaultNodeWeight c else nodeWeight.

Definition updateNodeWeight (node : v1.Node) (c : NodeWeightCache H)
  : NodeWeightCache H :=
  let weight :=
    resolveNodeWeight (v1.ObjectMeta node) (NodeWeightAnnotation c)
      (DefaultNodeWeight c) in
  let previousWeight :=
    default 0 (nodeWeights c !! metav1.Name (v1.ObjectMeta node)) in
  let changed := negb (previousWeight =? weight) in
  if changed
  then setNodeWeights
         (<[metav1.Name (v1.ObjectMeta node) := weight]> (nodeWeights c)) c
  else c.

Definition deleteNodeWeight (node : v1.Node) (c : NodeWeightCache H)
  : NodeWeightCache H :=
  setNodeWeights (delete (metav1.Name (v1.ObjectMeta node)) (nodeWeights c)) c.

Definition OnAdd (obj : Object) (c : NodeWeightCache H) : NodeWeightCache H :=
  let c :=
    match obj with
    | NodePtr node => updateNodeWeight node c
    | _ => Errorf "OnAdd unexpected type %T: %#v" obj c
    end in
  match Next c with
  | Some next => setNext (Some (cache.OnAdd obj next)) c
  | None => c
  end.

Definition OnUpdate (oldObj newObj : Object) (c : NodeWeightCache H)
  : NodeWeightCache H :=
  let c :=
    match newObj with
    | NodePtr node =>
        if negb (cmp.EqualIgnoringStatus oldObj node)
        then updateNodeWeight node c
        else c
    | _ => Errorf "OnUpdate unexpected type %T: %#v" newObj c
    end in
  match Next c with
  | Some next => setNext (Some (cache.OnUpdate oldObj newObj next)) c
  | None => c
  end.

(** The [DeletedFinalStateUnknown] arm calls [c.OnDelete(obj.Obj)], the whole
    method, and control then falls out of the switch to the forwarding of the
    outer [obj]. *)
Fixpoint OnDelete (obj : Object) (c : NodeWeightCache H) : NodeWeightCache H :=
  let c :=
    match obj with
    | NodePtr node => deleteNodeWeight node c
    | DeletedFinalStateUnknown _ inner => OnDelete inner c
    | _ => Errorf "OnDelete unexpected type %T: %#v" obj c
    end in
  match Next c with
  | Some next => setNext (Some (cache.OnDelete obj next)) c
  | None => c
  end.

End NodeWeightCache.

(** The cache is itself a handler, so caches can be chained. *)
#[global] Instance NodeWeightCache_handler {H : Type}
  `{!cache.ResourceEventHandler H}
  : cache.ResourceEventHandler (NodeWeightCache H) :=
  {| cache.OnAdd := OnAdd; cache.OnUpdate := OnUpdate;
     cache.OnDelete := OnDelete |}.

(** ** Downstream handlers *)

(** The test's handler: one flag per callback. *)
Record TestEventHandler : Type := {
  addCalled : bool;
  deleteCalled : bool;
  updateCalled : bool;
}.

Definition NewTestEventHandler : TestEventHandler :=
  {| addCalled := false; deleteCalled := false; updateCalled := false |}.

#[global] Instance TestEventHandler_handler
  : cache.ResourceEventHandler TestEventHandler :=
  {| cache.OnAdd _ h :=
       {| addCalled := true; deleteCalled := deleteCalled h;
          updateCalled := updateCalled h |};
     cache.OnUpdate _ _ h :=
       {| addCalled := addCalled h; deleteCalled := deleteCalled h;
          updateCalled := true |};
     cache.OnDelete _ h :=
       {| addCalled := addCalled h; deleteCalled := true;
          updateCalled := updateCalled h |} |}.

(** A handler that keeps every call it receives with its arguments, in the
    order of arrival: what a downstream consumer can observe. *)
Inductive Call : Type :=
| AddCall (obj : Object)
| UpdateCall (oldObj newObj : Object)
| DeleteCall (obj : Object).

Record Recorder : Type := { calls : list Call }.

#[global] Instance Recorder_handler : cache.ResourceEventHandler Recorder :=
  {| cache.OnAdd obj r := {| calls := calls r ++ [AddCall obj] |};
     cache.OnUpdate oldObj newObj r :=
       {| calls := calls r ++ [UpdateCall oldObj newObj] |};
     cache.OnDelete obj r := {| calls := calls r ++ [DeleteCall obj] |} |}.

(** ** The weighted endpoint builders (internal/envoy/v3/endpoint.go) *)

Module protobuf.

Record UInt32Value : Type := { Value : N }.

(** Modelled from the spec: [internal/protobuf.UInt32], whose source is not
    among the files here.  The comment on [WeightedLBEndpoint] says the field
    is "set to the supplied value", so the helper is taken to return a (non
    nil) pointer to a wrapper holding its argument. *)
Definition UInt32 (val : N) : option UInt32Value := Some {| Value := val |}.

End protobuf.

Module envoy_v3.

(** [envoy_core_v3.Address] is opaque to this code: only the pointer is
    stored. *)
Section Endpoint.

Context {Address : Type}.

Record Endpoint : Type := { Address_ : option Address }.

(** The [HostIdentifier] oneof, always built with its [Endpoint] arm. *)
Inductive isLbEndpoint_HostIdentifier : Type :=
| LbEndpoint_Endpoint (Endpoint_ : option Endpoint).

Record LbEndpoint : Type := {
  HostIdentifier : option isLbEndpoint_HostIdentifier;
  LoadBalancingWeight : option protobuf.UInt32Value;
}.

Definition NoWeight : N := 0.

Definition WeightedLBEndpoint (weight : N) (addr : option Address)
  : LbEndpoint :=
  let endpoint :=
    {| HostIdentifier :=
         Some (LbEndpoint_Endpoint (Some {| Address_ := addr |}));
       LoadBalancingWeight := None |} in
  if 0 <? weight
  then {| HostIdentifier := HostIdentifier endpoint;
          LoadBalancingWeight := protobuf.UInt32 weight |}
  else endpoint.

Definition LBEndpoint (addr : option Address) : LbEndpoint :=
  WeightedLBEndpoint NoWeight addr.

(** The generated getters: [GetEndpoint] and [GetAddress] are nil-safe. *)
Definition GetEndpoint (e : LbEndpoint) : option Endpoint :=
  match HostIdentifier e with
  | Some (LbEndpoint_Endpoint ep) => ep
  | None => None
  end.

Definition GetAddress (e : option Endpoint) : option Address :=
  match e with
  | Some ep => Address_ ep
  | None => None
  end.

End Endpoint.

Arguments Endpoint : clear implicits.
Arguments isLbEndpoint_HostIdentifier : clear implicits.
Arguments LbEndpoint : clear implicits.

(** The go-control-plane messages that hold several endpoints. *)
Module envoy_endpoint_v3.

Record LocalityLbEndpoints (Address : Type) : Type := {
  LbEndpoints : list (LbEndpoint Address);
  LoadBalancingWeight : option protobuf.UInt32Value;
}.

Arguments LbEndpoints {Address} _.
Arguments LoadBalancingWeight {Address} _.

(** A nil slice and an empty one are both the empty list. *)
Record ClusterLoadAssignment (Address : Type) : Type := {
  ClusterName : string;
  Endpoints : list (LocalityLbEndpoints Address);
}.

Arguments ClusterName {Address} _.
Arguments Endpoints {Address} _.

End envoy_endpoint_v3.

Section Assignment.

Context {Address : Type}.

(** [protobuf.UInt32OrNil], whose source is not among the files here, is
    left open. *)
Context (UInt32OrNil : N -> option protobuf.UInt32Value).

(** The variadic [addrs] is a list; the loop appends one endpoint per
    address. *)
Definition WeightedEndpoints (weight : N) (addrs : list (option Address))
  : list (envoy_endpoint_v3.LocalityLbEndpoints Address) :=
  let lbendpoints :=
    fold_left (fun lbendpoints addr => lbendpoints ++ [LBEndpoint addr])
      addrs [] in
  [ {| envoy_endpoint_v3.LbEndpoints := lbendpoints;
       envoy_endpoint_v3.LoadBalancingWeight := UInt32OrNil weight |} ].

Definition Endpoints (addrs : list (option Address))
  : list (envoy_endpoint_v3.LocalityLbEndpoints Address) :=
  WeightedEndpoints 0 addrs.

Definition ClusterLoadAssignment (name : string)
  (addrs : list (option Address))
  : envoy_endpoint_v3.ClusterLoadAssignment Address :=
  if Nat.eqb (length addrs) 0
  then {| envoy_endpoint_v3.ClusterName := name;
          envoy_endpoint_v3.Endpoints := [] |}
  else {| envoy_endpoint_v3.ClusterName := name;
          envoy_endpoint_v3.Endpoints := Endpoints addrs |}.

End Assignment.

End envoy_v3.

(** ** The scenarios of TestNodeWeightCache *)

Module Scenario.

Definition meta (name : string) (k v : string) : metav1.ObjectMeta :=
  {| metav1.Name := name; metav1.Namespace := "";
     metav1.Labels := None;
     metav1.Annotations := Some {[ k := v ]} |}.

Definition node (name : string) (k v : string) : v1.Node :=
  {| v1.ObjectMeta := meta name k v;
     v1.Spec := {| v1.PodCIDR := ""; v1.ProviderID := "";
                   v1.Unschedulable := false |};
     v1.Status := {| v1.Phase := ""; v1.Addresses := [] |} |}.

Definition endpoints (name : string) (k v : string) : v1.Endpoints :=
  {| v1.Endpoints_ObjectMeta := meta name k v |}.

(** The body of the test loop: the cache is built and fed [initialState]
    with no next handler, then given a fresh handler and one event chosen by
    which of [old] and [new] are set. *)
Definition run {H : Type} `{!cache.ResourceEventHandler H} (h : H)
  (initialState : list v1.Node)
  (nodeWeightAnnotation : string) (defaultNodeWeight : N)
  (old new : option Object) : NodeWeightCache H :=
  let c := NewNodeWeightCache nodeWeightAnnotation defaultNodeWeight in
  let c := fold_left (fun c n => OnAdd (NodePtr n) c) initialState c in
  let c := setNext (Some h) c in
  match old, new with
  | Some o, Some n => OnUpdate o n c
  | None, Some n => OnAdd n c
  | Some o, None => OnDelete o c
  | None, None => c
  end.

Definition outcome (c : NodeWeightCache TestEventHandler) (nodeName : string)
  : N * option (bool * bool * bool) :=
  (GetWeightOfNode c nodeName,
   (fun h => (addCalled h, updateCalled h, deleteCalled h)) <$> Next c).

Definition wa : string := "weight-annotation".

End Scenario.

(** ** What "parses as a non-negative integer fitting in 32 bits" means *)

Module Spec.

Definition isDecimalDigit (c : N) : bool := (48 <=? c) && (c <=? 57).

(** The number a run of decimal digits denotes, after the digits that gave
    [acc]. *)
Definition decimalValue (bs : list N) (acc : N) : N :=
  fold_left (fun acc c => 10 * acc + (c - 48)) bs acc.

(** A string parses when it is a non-empty run of decimal digits (no sign, no
    blank) that denotes a number below 2^32. *)
Definition parseUint32 (s : string) : option N :=
  let bs := strconv.bytes s in
  if negb (bool_decide (bs = []))
     && forallb isDecimalDigit bs
     && (decimalValue bs 0 <? 2 ^ 32)
  then Some (decimalValue bs 0)
  else None.

(** The resolver in the words of its contract. *)
Definition resolve (annotations : option (gmap string string))
  (key : string) (default : N) : N :=
  match mapIndex annotations key with
  | None => default
  | Some value =>
      match parseUint32 value with
      | None => default
      | Some parsed => if 128 <? parsed then default else parsed
      end
  end.

End Spec.

(** ** Events and their effect on the cache *)

Inductive Event : Type :=
| Add (obj : Object)
| Update (oldObj newObj : Object)
| Delete (obj : Object).

Definition deliver {H : Type} `{!cache.ResourceEventHandler H} (ev : Event)
  (c : NodeWeightCache H) : NodeWeightCache H :=
  match ev with
  | Add obj => OnAdd obj c
  | Update oldObj newObj => OnUpdate oldObj newObj c
  | Delete obj => OnDelete obj c
  end.

Definition deliverAll {H : Type} `{!cache.ResourceEventHandler H}
  (evs : list Event) (c : NodeWeightCache H) : NodeWeightCache H :=
  fold_left (fun c ev => deliver ev c) evs c.

(** The names of the nodes an event carries, wrapped or not. *)
Fixpoint nodeNames (obj : Object) : list string :=
  match obj with
  | NodePtr node => [metav1.Name (v1.ObjectMeta node)]
  | DeletedFinalStateUnknown _ inner => nodeNames inner
  | _ => []
  end.

Definition eventNodeNames (ev : Event) : list string :=
  match ev with
  | Add obj => nodeNames obj
  | Update oldObj newObj => nodeNames oldObj ++ nodeNames newObj
  | Delete obj => nodeNames obj
  end.

(** What [updateNodeWeight] and a delete do to the table alone. *)
Definition upsert (name : string) (weight : N) (m : gmap string N)
  : gmap string N :=
  if negb (default 0 (m !! name) =? weight) then <[name := weight]> m else m.

Fixpoint deleteTable (obj : Object) (m : gmap string N) : gmap string N :=
  match obj with
  | NodePtr node => delete (metav1.Name (v1.ObjectMeta node)) m
  | DeletedFinalStateUnknown _ inner => deleteTable inner m
  | _ => m
  end.

(** The calls the next handler receives from one [OnDelete], in order. *)
Fixpoint deleteCalls (obj : Object) : list Call :=
  match obj with
  | DeletedFinalStateUnknown _ inner => deleteCalls inner ++ [DeleteCall obj]
  | _ => [DeleteCall obj]
  end.

(** A handler fed a list of calls, oldest first. *)
Definition replay {H : Type} `{!cache.ResourceEventHandler H}
  (cs : list Call) (h : H) : H :=
  fold_left
    (fun h call =>
       match call with
       | AddCall obj => cache.OnAdd obj h
       | UpdateCall oldObj newObj => cache.OnUpdate oldObj newObj h
       | DeleteCall obj => cache.OnDelete obj h
       end) cs h.

(** A name is seen when some event carries a node of that name. *)
Definition seen (name : string) (evs : list Event) : bool :=
  existsb (fun ev => existsb (String.eqb name) (eventNodeNames ev)) evs.

(** Every stored weight is at most 128 or is the configured default. *)
Definition tableInv {H : Type} (c : NodeWeightCache H) : Prop :=
  map_Forall (fun _ weight => weight <= 128 \/ weight = DefaultNodeWeight c)
    (nodeWeights c).


(** Whether a payload is a [*v1.Node]. *)
Definition isNode (obj : Object) : bool :=
  match obj with
  | NodePtr _ => true
  | _ => false
  end.

(** ** Events, seen from outside *)

(** The calls one event hands to the next handler, oldest first. *)
Definition eventCalls (ev : Event) : list Call :=
  match ev with
  | Add obj => [AddCall obj]
  | Update oldObj newObj => [UpdateCall oldObj newObj]
  | Delete obj => deleteCalls obj
  end.

(** How many [DeletedFinalStateUnknown] layers a payload has. *)
Fixpoint depth (obj : Object) : nat :=
  match obj with
  | DeletedFinalStateUnknown _ inner => S (depth inner)
  | _ => 0
  end.

(** The object under all the wrappers. *)
Fixpoint innermost (obj : Object) : Object :=
  match obj with
  | DeletedFinalStateUnknown _ inner => innermost inner
  | _ => obj
  end.

(** A payload under one wrapper per key, the first key outermost. *)
Definition wrap (keys : list string) (obj : Object) : Object :=
  fold_right DeletedFinalStateUnknown obj keys.

(** What one [OnDelete] logs. *)
Fixpoint deleteLog (obj : Object) : list LogEntry :=
  match obj with
  | NodePtr _ => []
  | DeletedFinalStateUnknown _ inner => deleteLog inner
  | _ => [Errorf_entry "OnDelete unexpected type %T: %#v" obj]
  end.

(** What one event logs. *)
Definition diagnostics (ev : Event) : list LogEntry :=
  match ev with
  | Add obj =>
      if isNode obj then []
      else [Errorf_entry "OnAdd unexpected type %T: %#v" obj]
  | Update _ newObj =>
      if isNode newObj then []
      else [Errorf_entry "OnUpdate unexpected type %T: %#v" newObj]
  | Delete obj => deleteLog obj
  end.

(** What one event does to the table, given the configuration. *)
Definition tableStep (key : string) (default : N) (ev : Event)
  (m : gmap string N) : gmap string N :=
  match ev with
  | Add (NodePtr node) =>
      upsert (metav1.Name (v1.ObjectMeta node))
        (resolveNodeWeight (v1.ObjectMeta node) key default) m
  | Add _ => m
  | Update oldObj (NodePtr node) =>
      if cmp.EqualIgnoringStatus oldObj node then m
      else upsert (metav1.Name (v1.ObjectMeta node))
             (resolveNodeWeight (v1.ObjectMeta node) key default) m
  | Update _ _ => m
  | Delete obj => deleteTable obj m
  end.

Definition isAddCall (call : Call) : bool :=
  match call with AddCall _ => true | _ => false end.

Definition isUpdateCall (call : Call) : bool :=
  match call with UpdateCall _ _ => true | _ => false end.

Definition isDeleteCall (call : Call) : bool :=
  match call with DeleteCall _ => true | _ => false end.

(** The event a call stands for. *)
Definition callEvent (call : Call) : Event :=
  match call with
  | AddCall obj => Add obj
  | UpdateCall oldObj newObj => Update oldObj newObj
  | DeleteCall obj => Delete obj
  end.

(** The address an endpoint was built from. *)
Definition addressOf {Address : Type} (e : envoy_v3.LbEndpoint Address)
  : option Address :=
  envoy_v3.GetAddress (envoy_v3.GetEndpoint e).

(** ** Proof steps *)

(** Case analysis on the next handler in the forwarding tail. *)
Ltac forwarded :=
  cbv zeta;
  match goal with
  | |- context [match Next ?c with _ => _ end] => destruct (Next c)
  end.

(** ** The test table, run on the model *)

Section TestNodeWeightCache.

Import Scenario.

Let weightAndCalls (initialState : list v1.Node) (defaultNodeWeight : N)
  (old new : option Object) (nodeName : string) :=
  outcome (run NewTestEventHandler initialState wa defaultNodeWeight old new)
    nodeName.

Example weight_from_annotation :
  weightAndCalls [] 0 None (Some (NodePtr (node "node1" wa "5"))) "node1"
  = (5, Some (true, false, false)).
Proof. vm_compute. reflexivity. Qed.

Example default_weight_if_node_name_is_missing :
  weightAndCalls [] 1 None None "" = (1, Some (false, false, false)).
Proof. vm_compute. reflexivity. Qed.

Example update_weight_from_annotation :
  weightAndCalls [node "node1" wa "10"] 0
    (Some (NodePtr (node "node1" wa "10")))
    (Some (NodePtr (node "node1" wa "5"))) "node1"
  = (5, Some (false, true, false)).
Proof. vm_compute. reflexivity. Qed.

Example delete_weight_from_annotation :
  weightAndCalls [node "node1" wa "5"] 1
    (Some (NodePtr (node "node1" wa "5"))) None "node1"
  = (1, Some (false, false, true)).
Proof. vm_compute. reflexivity. Qed.

Example abnormal_weight_from_annotation :
  weightAndCalls [] 1 None (Some (NodePtr (node "node1" wa "10000"))) "node1"
  = (1, Some (true, false, false)).
Proof. vm_compute. reflexivity. Qed.

Example unparsable_weight_from_annotation :
  weightAndCalls [] 1 None
    (Some (NodePtr (node "node1" wa "this will not parse as an int"))) "node1"
  = (1, Some (true, false, false)).
Proof. vm_compute. reflexivity. Qed.

Example annotation_not_found :
  weightAndCalls [] 1 None
    (Some (NodePtr (node "node1" "not a weight-annotation" "5"))) "node1"
  = (1, Some (true, false, false)).
Proof. vm_compute. reflexivity. Qed.

Example wrong_type_added :
  weightAndCalls [] 1 None
    (Some (EndpointsPtr (endpoints "node1" wa "10000"))) "node1"
  = (1, Some (true, false, false)).
Proof. vm_compute. reflexivity. Qed.

Example wrong_old_type_updated :
  weightAndCalls [node "node1" wa "10"] 1
    (Some (EndpointsPtr (endpoints "node1" wa "15")))
    (Some (NodePtr (node "node1" wa "5"))) "node1"
  = (5, Some (false, true, false)).
Proof. vm_compute. reflexivity. Qed.

Example wrong_new_type_updated :
  weightAndCalls [node "node1" wa "5"] 0
    (Some (NodePtr (node "node1" wa "10")))
    (Some (EndpointsPtr (endpoints "node1" wa "15"))) "node1"
  = (5, Some (false, true, false)).
Proof. vm_compute. reflexivity. Qed.

Example wrong_type_deleted :
  weightAndCalls [node "node1" wa "5"] 1
    (Some (EndpointsPtr (endpoints "node1" wa "5"))) None "node1"
  = (5, Some (false, false, true)).
Proof. vm_compute. reflexivity. Qed.

(** The flag of the test's handler does not tell one call from two. *)
Example delete_final_state_unknown :
  weightAndCalls [node "node1" wa "5"] 1
    (Some (DeletedFinalStateUnknown "node1" (NodePtr (node "node1" wa "5"))))
    None "node1"
  = (1, Some (false, false, true)).
Proof. vm_compute. reflexivity. Qed.

End TestNodeWeightCache.

(** ** The parser *)

Lemma decimalValue_ge (bs : list N) (acc : N) :
  acc <= Spec.decimalValue bs acc.
Proof.
  revert acc. induction bs as [|c bs IH]; intros acc; simpl; [lia|].
  etransitivity; [|apply IH]. lia.
Qed.

Lemma digit_decimal (c : N) :
  Spec.isDecimalDigit c = true -> strconv.digit c = Some (c - 48).
Proof. unfold Spec.isDecimalDigit, strconv.digit. intros ->. reflexivity. Qed.

Lemma digit_not_decimal (c d : N) :
  Spec.isDecimalDigit c = false -> strconv.digit c = Some d -> 10 <= d.
Proof.
  unfold Spec.isDecimalDigit, strconv.digit. intros ->.
  destruct (_ && _); [|discriminate]. intros [= <-]. lia.
Qed.

(** At 32 bits the accumulator stays below the cut-off and no [uint64]
    operation of the loop wraps: the loop returns the denoted number when
    every byte is a digit and that number fits, and an error otherwise. *)
Lemma parseLoop_32 (bs : list N) (n : N) :
  n < 2 ^ 32 ->
  strconv.parseLoop 10 (strconv.maxUint64 / 10 + 1) (2 ^ 32 - 1) bs n =
    (Spec.decimalValue bs n, None)
  /\ forallb Spec.isDecimalDigit bs = true
  /\ Spec.decimalValue bs n < 2 ^ 32
  \/ (exists v e,
        strconv.parseLoop 10 (strconv.maxUint64 / 10 + 1) (2 ^ 32 - 1) bs n =
          (v, Some e))
     /\ forallb Spec.isDecimalDigit bs && (Spec.decimalValue bs n <? 2 ^ 32)
        = false.
Proof.
  revert n. induction bs as [|c bs IH]; intros n Hn.
  - left. simpl. auto.
  - cbn [strconv.parseLoop forallb].
    destruct (Spec.isDecimalDigit c) eqn:Hc.
    + rewrite (digit_decimal _ Hc).
      assert (Hd : c - 48 < 10).
      { unfold Spec.isDecimalDigit in Hc.
        apply andb_true_iff in Hc as [_ Hc%N.leb_le]. lia. }
      destruct (N.leb_spec 10 (c - 48)) as [?|_]; [lia|].
      assert (Hcut : 2 ^ 32 < strconv.maxUint64 / 10 + 1) by (vm_compute; reflexivity).
      destruct (N.leb_spec (strconv.maxUint64 / 10 + 1) n) as [?|_]; [lia|].
      assert (Hbig : 10 * 2 ^ 32 + 10 < 2 ^ 64) by (vm_compute; reflexivity).
      cbv zeta. unfold strconv.wrap64.
      rewrite (N.mod_small (n * 10)) by lia.
      rewrite (N.mod_small (n * 10 + _)) by lia.
      destruct (N.ltb_spec (n * 10 + (c - 48)) (n * 10)) as [?|_]; [lia|].
      cbn [orb andb]. change (Spec.decimalValue (c :: bs) n)
        with (Spec.decimalValue bs (10 * n + (c - 48))).
      replace (n * 10 + (c - 48)) with (10 * n + (c - 48)) by lia.
      destruct (N.ltb_spec (2 ^ 32 - 1) (10 * n + (c - 48))) as [Hov|Hok].
      * right. split; [eauto|].
        pose proof (decimalValue_ge bs (10 * n + (c - 48))).
        apply andb_false_iff. right. apply N.ltb_ge. lia.
      * apply IH. lia.
    + right. split; [|reflexivity].
      destruct (strconv.digit c) as [d|] eqn:Hdig; [|eauto].
      pose proof (digit_not_decimal _ _ Hc Hdig).
      destruct (N.leb_spec 10 d) as [_|?]; [eauto|lia].
Qed.

Lemma ParseUint_32_unfold (s : string) :
  strconv.ParseUint s 32 =
    match strconv.bytes s with
    | [] => (0, Some strconv.ErrSyntax)
    | bs => strconv.parseLoop 10 (strconv.maxUint64 / 10 + 1) (2 ^ 32 - 1) bs 0
    end.
Proof. unfold strconv.ParseUint. destruct (strconv.bytes s); reflexivity. Qed.

(** [ParseUint(s, 10, 32)] succeeds exactly on the strings that parse, with
    the number they denote. *)
Lemma ParseUint_32_spec (s : string) :
  match Spec.parseUint32 s with
  | Some v => strconv.ParseUint s 32 = (v, None) /\ v < 2 ^ 32
  | None => exists v e, strconv.ParseUint s 32 = (v, Some e)
  end.
Proof.
  rewrite ParseUint_32_unfold. unfold Spec.parseUint32.
  destruct (strconv.bytes s) as [|c bs] eqn:Hbs.
  - cbn. eauto.
  - rewrite bool_decide_eq_false_2 by discriminate. cbn [negb andb].
    destruct (parseLoop_32 (c :: bs) 0) as [(Hp & Hd & Hv)|[Herr Hf]];
      [vm_compute; reflexivity| |].
    + rewrite Hd. cbn [andb]. apply N.ltb_lt in Hv as Hv'. rewrite Hv'. auto.
    + rewrite Hf. exact Herr.
Qed.

(** ** The resolver *)

Lemma uint32_small (n : N) : n < 2 ^ 32 -> uint32 n = n.
Proof. intros Hn. unfold uint32. apply N.mod_small, Hn. Qed.

Lemma normalizeWeight_default (d : N) : normalizeWeight d d = d.
Proof. unfold normalizeWeight. destruct (128 <? d); reflexivity. Qed.

(** The code and the contract agree on every input. *)
Lemma resolveNodeWeight_resolve (meta : metav1.ObjectMeta) (key : string)
  (default : N) :
  resolveNodeWeight meta key default =
  Spec.resolve (metav1.Annotations meta) key default.
Proof.
  unfold resolveNodeWeight, Spec.resolve.
  destruct (mapIndex (metav1.Annotations meta) key) as [value|];
    [|apply normalizeWeight_default].
  pose proof (ParseUint_32_spec value) as Hp.
  destruct (Spec.parseUint32 value) as [parsed|].
  - destruct Hp as [-> Hlt]. rewrite uint32_small by exact Hlt. reflexivity.
  - destruct Hp as (v & e & ->). apply normalizeWeight_default.
Qed.

(** C2. The resolver returns the default when the key is absent from the
    annotations or its value does not parse as a non-negative integer that
    fits in 32 bits; when the value parses, it returns the default if the
    number exceeds 128 and the number itself otherwise, 0 included.  It is a
    function of the annotations, the key and the default alone. *)
Theorem resolveNodeWeight_spec (meta : metav1.ObjectMeta) (key : string)
  (default : N) :
  resolveNodeWeight meta key default =
  match mapIndex (metav1.Annotations meta) key with
  | None => default
  | Some value =>
      match Spec.parseUint32 value with
      | None => default
      | Some parsed => if 128 <? parsed then default else parsed
      end
  end.
Proof. apply resolveNodeWeight_resolve. Qed.

(** The resolved weight is at most 128 or is the default. *)
Lemma resolveNodeWeight_range (meta : metav1.ObjectMeta) (key : string)
  (default : N) :
  resolveNodeWeight meta key default <= 128
  \/ resolveNodeWeight meta key default = default.
Proof.
  unfold resolveNodeWeight, normalizeWeight.
  match goal with |- context [128 <? ?w] => destruct (N.ltb_spec 128 w) end;
    auto.
Qed.

(** ** Frame properties of the handlers *)

Section Frame.

Context {H : Type} `{!cache.ResourceEventHandler H}.

Implicit Types (c : NodeWeightCache H) (obj : Object) (node : v1.Node).

Lemma updateNodeWeight_table node c :
  nodeWeights (updateNodeWeight node c) =
  upsert (metav1.Name (v1.ObjectMeta node))
    (resolveNodeWeight (v1.ObjectMeta node) (NodeWeightAnnotation c)
       (DefaultNodeWeight c))
    (nodeWeights c).
Proof.
  unfold updateNodeWeight, upsert. cbv zeta.
  destruct (negb _); reflexivity.
Qed.

Lemma updateNodeWeight_frame node c :
  FieldLogger (updateNodeWeight node c) = FieldLogger c
  /\ Next (updateNodeWeight node c) = Next c
  /\ NodeWeightAnnotation (updateNodeWeight node c) = NodeWeightAnnotation c
  /\ DefaultNodeWeight (updateNodeWeight node c) = DefaultNodeWeight c.
Proof. unfold updateNodeWeight. cbv zeta. destruct (negb _); auto. Qed.

Lemma OnAdd_table obj c :
  nodeWeights (OnAdd obj c) =
  match obj with
  | NodePtr node => nodeWeights (updateNodeWeight node c)
  | _ => nodeWeights c
  end.
Proof. unfold OnAdd. forwarded; destruct obj; reflexivity. Qed.

Lemma OnUpdate_table oldObj newObj c :
  nodeWeights (OnUpdate oldObj newObj c) =
  match newObj with
  | NodePtr node =>
      if cmp.EqualIgnoringStatus oldObj node then nodeWeights c
      else nodeWeights (updateNodeWeight node c)
  | _ => nodeWeights c
  end.
Proof.
  unfold OnUpdate. forwarded; destruct newObj; try reflexivity;
    destruct (cmp.EqualIgnoringStatus _ _); reflexivity.
Qed.

Lemma OnDelete_table obj c :
  nodeWeights (OnDelete obj c) = deleteTable obj (nodeWeights c).
Proof.
  revert c. induction obj as [| | |key inner IH]; intros c; simpl;
    try (forwarded; reflexivity).
  specialize (IH c). destruct (Next (OnDelete inner c)); exact IH.
Qed.

Lemma OnAdd_config obj c :
  NodeWeightAnnotation (OnAdd obj c) = NodeWeightAnnotation c
  /\ DefaultNodeWeight (OnAdd obj c) = DefaultNodeWeight c.
Proof.
  unfold OnAdd. destruct obj; try (forwarded; auto).
  all: destruct (updateNodeWeight_frame node c) as (_ & _ & ? & ?); auto.
Qed.

Lemma OnUpdate_config oldObj newObj c :
  NodeWeightAnnotation (OnUpdate oldObj newObj c) = NodeWeightAnnotation c
  /\ DefaultNodeWeight (OnUpdate oldObj newObj c) = DefaultNodeWeight c.
Proof.
  unfold OnUpdate. destruct newObj; try (forwarded; auto).
  all: destruct (cmp.EqualIgnoringStatus _ _); auto.
  all: destruct (updateNodeWeight_frame node c) as (_ & _ & ? & ?); auto.
Qed.

Lemma OnDelete_config obj c :
  NodeWeightAnnotation (OnDelete obj c) = NodeWeightAnnotation c
  /\ DefaultNodeWeight (OnDelete obj c) = DefaultNodeWeight c.
Proof.
  revert c. induction obj as [| | |key inner IH]; intros c; simpl;
    try (forwarded; auto).
  specialize (IH c). destruct (Next (OnDelete inner c)); exact IH.
Qed.

Lemma deliver_config ev c :
  NodeWeightAnnotation (deliver ev c) = NodeWeightAnnotation c
  /\ DefaultNodeWeight (deliver ev c) = DefaultNodeWeight c.
Proof.
  destruct ev; [apply OnAdd_config|apply OnUpdate_config|apply OnDelete_config].
Qed.

Lemma deliverAll_config evs c :
  NodeWeightAnnotation (deliverAll evs c) = NodeWeightAnnotation c
  /\ DefaultNodeWeight (deliverAll evs c) = DefaultNodeWeight c.
Proof.
  revert c. induction evs as [|ev evs IH]; intros c; [auto|].
  change (deliverAll (ev :: evs) c) with (deliverAll evs (deliver ev c)).
  destruct (IH (deliver ev c)) as [-> ->]. apply deliver_config.
Qed.

End Frame.

(** ** Forwarding to the next handler *)

Section Forwarding.

Context {H : Type} `{!cache.ResourceEventHandler H}.

Implicit Types (c : NodeWeightCache H) (obj : Object).

Lemma OnAdd_forward obj c :
  Next (OnAdd obj c) = cache.OnAdd obj <$> Next c.
Proof.
  unfold OnAdd. cbv zeta.
  assert (Hn : forall c', Next c' = Next c ->
    Next match Next c' with
         | Some next => setNext (Some (cache.OnAdd obj next)) c'
         | None => c'
         end = cache.OnAdd obj <$> Next c).
  { intros c' <-. destruct (Next c') eqn:E; [reflexivity|exact E]. }
  apply Hn. destruct obj; try reflexivity.
  apply updateNodeWeight_frame.
Qed.

Lemma OnUpdate_forward oldObj newObj c :
  Next (OnUpdate oldObj newObj c) = cache.OnUpdate oldObj newObj <$> Next c.
Proof.
  unfold OnUpdate. cbv zeta.
  assert (Hn : forall c', Next c' = Next c ->
    Next match Next c' with
         | Some next => setNext (Some (cache.OnUpdate oldObj newObj next)) c'
         | None => c'
         end = cache.OnUpdate oldObj newObj <$> Next c).
  { intros c' <-. destruct (Next c') eqn:E; [reflexivity|exact E]. }
  apply Hn. destruct newObj; try reflexivity.
  destruct (negb _); [apply updateNodeWeight_frame|reflexivity].
Qed.

Lemma replay_app (cs1 cs2 : list Call) (h : H) :
  replay (cs1 ++ cs2) h = replay cs2 (replay cs1 h).
Proof. apply fold_left_app. Qed.

(** One [OnDelete] hands the next handler every layer of the payload, the
    innermost first and the payload itself last. *)
Lemma OnDelete_forward obj c :
  Next (OnDelete obj c) = replay (deleteCalls obj) <$> Next c.
Proof.
  revert c. induction obj as [| | |key inner IH]; intros c; simpl;
    try (destruct (Next c) eqn:E; cbn; rewrite ?E; reflexivity).
  specialize (IH c). destruct (Next (OnDelete inner c)) as [h|] eqn:E.
  - cbn. destruct (Next c) as [h0|]; [|discriminate].
    cbn in IH. injection IH as ->. cbn. rewrite replay_app. reflexivity.
  - rewrite E. destruct (Next c); [discriminate|reflexivity].
Qed.

Lemma OnDelete_forward_once obj c :
  (forall key inner, obj <> DeletedFinalStateUnknown key inner) ->
  Next (OnDelete obj c) = cache.OnDelete obj <$> Next c.
Proof.
  intros Hobj. rewrite OnDelete_forward.
  destruct obj; try reflexivity. exfalso. eapply Hobj. reflexivity.
Qed.

End Forwarding.

Lemma length_deleteCalls (obj : Object) :
  length (deleteCalls obj) =
  match obj with
  | DeletedFinalStateUnknown _ inner => S (length (deleteCalls inner))
  | _ => 1%nat
  end.
Proof.
  destruct obj; try reflexivity. cbn [deleteCalls].
  rewrite length_app. cbn. lia.
Qed.

(** C1. At a delete of a [DeletedFinalStateUnknown] around a node (the
    scenario "delete final state unknown" of the test, with a handler that
    keeps its calls) the next handler is called twice, first with the inner
    node and then with the wrapper, where one call with the wrapper is
    claimed. *)
Theorem OnDelete_tombstone_forwarded_twice :
  let node1 := Scenario.node "node1" Scenario.wa "5" in
  let tombstone := DeletedFinalStateUnknown "node1" (NodePtr node1) in
  calls <$> Next (Scenario.run {| calls := [] |} [node1] Scenario.wa 1
                    (Some tombstone) None)
  = Some [DeleteCall (NodePtr node1); DeleteCall tombstone].
Proof. vm_compute. reflexivity. Qed.

(** ** Reading the table *)

Lemma upsert_read (name : string) (weight : N) (m : gmap string N) :
  default 0 (upsert name weight m !! name) = weight.
Proof.
  unfold upsert. destruct (N.eqb_spec (default 0 (m !! name)) weight) as [E|_];
    cbn [negb]; [exact E|]. rewrite lookup_insert_eq. reflexivity.
Qed.

Lemma upsert_lookup_ne (name other : string) (weight : N)
  (m : gmap string N) :
  name <> other -> upsert name weight m !! other = m !! other.
Proof.
  intros Hne. unfold upsert. destruct (negb _); [|reflexivity].
  apply lookup_insert_ne, Hne.
Qed.

Lemma upsert_stored (name : string) (weight : N) (m : gmap string N) :
  is_Some (m !! name) -> upsert name weight m = <[name := weight]> m.
Proof.
  intros [v Hv]. unfold upsert. rewrite Hv. cbn [default from_option id].
  destruct (N.eqb_spec v weight) as [->|_]; cbn [negb]; [|reflexivity].
  symmetry. apply insert_id, Hv.
Qed.

Lemma upsert_fresh (name : string) (weight : N) (m : gmap string N) :
  m !! name = None ->
  upsert name weight m = if weight =? 0 then m else <[name := weight]> m.
Proof.
  intros Hm. unfold upsert. rewrite Hm. cbn [default from_option id].
  rewrite (N.eqb_sym 0 weight). destruct (weight =? 0); reflexivity.
Qed.

Lemma deleteTable_lookup_None (obj : Object) (m : gmap string N)
  (name : string) :
  m !! name = None -> deleteTable obj m !! name = None.
Proof.
  revert m. induction obj as [|node| |key inner IH]; intros m Hm; cbn; auto.
  rewrite lookup_delete. destruct (decide _); [reflexivity|exact Hm].
Qed.

Section Reading.

Context {H : Type} `{!cache.ResourceEventHandler H}.

Implicit Types (c : NodeWeightCache H) (obj : Object) (node : v1.Node).

Lemma GetWeightOfNode_lookup c (name : string) :
  GetWeightOfNode c name =
  match nodeWeights c !! name with
  | Some weight => if weight =? 0 then DefaultNodeWeight c else weight
  | None => DefaultNodeWeight c
  end.
Proof. unfold GetWeightOfNode. destruct (nodeWeights c !! name); reflexivity. Qed.

Lemma existsb_eqb_false (name : string) (names : list string) :
  existsb (String.eqb name) names = false -> ~ In name names.
Proof.
  intros Hex Hin. apply not_true_iff_false in Hex. apply Hex.
  apply existsb_exists. exists name. split; [exact Hin|]. apply String.eqb_refl.
Qed.

Lemma deliver_unseen ev c (name : string) :
  existsb (String.eqb name) (eventNodeNames ev) = false ->
  nodeWeights c !! name = None ->
  nodeWeights (deliver ev c) !! name = None.
Proof.
  intros Hun%existsb_eqb_false Hm. destruct ev as [obj|oldObj newObj|obj]; cbn.
  - rewrite OnAdd_table. destruct obj; try exact Hm.
    rewrite updateNodeWeight_table, upsert_lookup_ne; [exact Hm|].
    intros E. apply Hun. cbn. auto.
  - rewrite OnUpdate_table. destruct newObj; try exact Hm.
    destruct (cmp.EqualIgnoringStatus _ _); [exact Hm|].
    rewrite updateNodeWeight_table, upsert_lookup_ne; [exact Hm|].
    intros E. apply Hun. cbn. apply in_or_app. right. cbn. auto.
  - rewrite OnDelete_table. apply deleteTable_lookup_None, Hm.
Qed.

Lemma deliverAll_unseen evs c (name : string) :
  seen name evs = false ->
  nodeWeights c !! name = None ->
  nodeWeights (deliverAll evs c) !! name = None.
Proof.
  revert c. induction evs as [|ev evs IH]; intros c Hs Hm; [exact Hm|].
  cbn in Hs. apply orb_false_iff in Hs as [Hev Hs].
  change (deliverAll (ev :: evs) c) with (deliverAll evs (deliver ev c)).
  apply IH; [exact Hs|]. apply deliver_unseen; assumption.
Qed.

End Reading.

(** C3. [GetWeightOfNode] returns the value the table stores for the name,
    except that it returns the configured default when the table has no entry
    for the name or stores zero for it.  A cache that was built by
    [NewNodeWeightCache] and has since received only events that carry no
    node of that name has no entry for it, and returns the default. *)
Theorem GetWeightOfNode_spec {H : Type} `{!cache.ResourceEventHandler H}
  (c : NodeWeightCache H) (name : string) :
  GetWeightOfNode c name =
    match nodeWeights c !! name with
    | Some weight => if weight =? 0 then DefaultNodeWeight c else weight
    | None => DefaultNodeWeight c
    end
  /\ forall (next : option H) (key : string) (default : N) (evs : list Event),
       seen name evs = false ->
       let c' := deliverAll evs (setNext next (NewNodeWeightCache key default)) in
       nodeWeights c' !! name = None /\ GetWeightOfNode c' name = default.
Proof.
  split; [apply GetWeightOfNode_lookup|].
  intros next key default evs Hs c'.
  assert (Hm : nodeWeights c' !! name = None).
  { apply deliverAll_unseen; [exact Hs|]. apply lookup_empty. }
  split; [exact Hm|]. rewrite GetWeightOfNode_lookup, Hm.
  apply (deliverAll_config evs (setNext next (NewNodeWeightCache key default))).
Qed.

Lemma GetWeightOfNode_spec_witness :
  let evs :=
    [Add (NodePtr (Scenario.node "node2" Scenario.wa "7"));
     Delete (EndpointsPtr (Scenario.endpoints "node1" Scenario.wa "5"))] in
  let c' :=
    deliverAll evs
      (setNext (Some NewTestEventHandler)
         (NewNodeWeightCache Scenario.wa 3)) in
  seen "node1" evs = false
  /\ nodeWeights c' !! "node1" = None /\ GetWeightOfNode c' "node1" = 3.
Proof.
  intros evs c'. split; [reflexivity|].
  apply (proj2 (GetWeightOfNode_spec
                  (NewNodeWeightCache (H := TestEventHandler) "" 0) "node1")).
  reflexivity.
Defined.

(** ** Adding a node *)

Lemma resolveNodeWeight_parsed (meta : metav1.ObjectMeta) (key value : string)
  (default parsed : N) :
  mapIndex (metav1.Annotations meta) key = Some value ->
  Spec.parseUint32 value = Some parsed ->
  parsed <= 128 ->
  resolveNodeWeight meta key default = parsed.
Proof.
  intros Hk Hp Hr. rewrite resolveNodeWeight_resolve. unfold Spec.resolve.
  rewrite Hk, Hp. destruct (N.ltb_spec 128 parsed); [lia|reflexivity].
Qed.

(** C4, as claimed, fails: a node annotated "0", added to a cache whose
    default is 1, reads back as 1. *)
Lemma OnAdd_zero_reads_default :
  let node1 := Scenario.node "node1" Scenario.wa "0" in
  let c := NewNodeWeightCache (H := TestEventHandler) Scenario.wa 1 in
  Spec.parseUint32 "0" = Some 0
  /\ strconv.ParseUint "0" 32 = (0, None)
  /\ GetWeightOfNode (OnAdd (NodePtr node1) c) "node1" <> 0.
Proof. vm_compute. repeat split; discriminate. Qed.

(** C4, amended. When the annotation under the configured key parses as an
    integer in [1, 128], [GetWeightOfNode] for the node's name after [OnAdd]
    of the node returns that integer; when it parses as 0, it returns the
    configured default. *)
Theorem OnAdd_then_GetWeightOfNode {H : Type} `{!cache.ResourceEventHandler H}
  (c : NodeWeightCache H) (node : v1.Node) (value : string) (parsed : N) :
  mapIndex (metav1.Annotations (v1.ObjectMeta node)) (NodeWeightAnnotation c)
    = Some value ->
  Spec.parseUint32 value = Some parsed ->
  parsed <= 128 ->
  GetWeightOfNode (OnAdd (NodePtr node) c) (metav1.Name (v1.ObjectMeta node))
  = if parsed =? 0 then DefaultNodeWeight c else parsed.
Proof.
  intros Hk Hp Hr. unfold GetWeightOfNode. cbv zeta.
  rewrite OnAdd_table, updateNodeWeight_table, upsert_read.
  rewrite (resolveNodeWeight_parsed _ _ _ _ _ Hk Hp Hr).
  destruct (OnAdd_config (NodePtr node) c) as [_ ->]. reflexivity.
Qed.

Lemma OnAdd_then_GetWeightOfNode_witness :
  let node1 := Scenario.node "node1" Scenario.wa "5" in
  let c := NewNodeWeightCache (H := TestEventHandler) Scenario.wa 1 in
  GetWeightOfNode (OnAdd (NodePtr node1) c) "node1" = 5.
Proof.
  intros node1 c.
  apply (OnAdd_then_GetWeightOfNode c node1 "5" 5); [reflexivity|reflexivity|].
  vm_compute. discriminate.
Defined.

(** ** The range of the stored weights *)

Lemma upsert_Forall (P : string -> N -> Prop) (name : string) (weight : N)
  (m : gmap string N) :
  P name weight -> map_Forall P m -> map_Forall P (upsert name weight m).
Proof.
  intros Hw Hm. unfold upsert. destruct (negb _); [|exact Hm].
  apply map_Forall_insert_2; assumption.
Qed.

Lemma deleteTable_Forall (P : string -> N -> Prop) (obj : Object)
  (m : gmap string N) :
  map_Forall P m -> map_Forall P (deleteTable obj m).
Proof.
  revert m. induction obj as [|node| |key inner IH]; intros m Hm; cbn; auto.
  apply map_Forall_delete, Hm.
Qed.


Lemma deliver_keeps_tableInv {H : Type} `{!cache.ResourceEventHandler H}
  (ev : Event) (c : NodeWeightCache H) :
  tableInv c -> tableInv (deliver ev c).
Proof.
  unfold tableInv. destruct (deliver_config ev c) as [_ ->]. intros Hc.
  assert (Hup : forall node,
    map_Forall (fun _ w => w <= 128 \/ w = DefaultNodeWeight c)
      (nodeWeights (updateNodeWeight node c))).
  { intros node. rewrite updateNodeWeight_table.
    apply upsert_Forall; [apply resolveNodeWeight_range|exact Hc]. }
  destruct ev as [obj|oldObj newObj|obj]; cbn.
  - rewrite OnAdd_table. destruct obj; auto.
  - rewrite OnUpdate_table. destruct newObj; auto.
    destruct (cmp.EqualIgnoringStatus _ _); auto.
  - rewrite OnDelete_table. apply deleteTable_Forall, Hc.
Qed.




(** The invariant holds of every cache reached from a new one. *)
Lemma deliverAll_tableInv {H : Type} `{!cache.ResourceEventHandler H}
  (next : option H) (key : string) (default : N) (evs : list Event) :
  tableInv (deliverAll evs (setNext next (NewNodeWeightCache key default))).
Proof.
  assert (Hgen : forall c : NodeWeightCache H,
    tableInv c -> tableInv (deliverAll evs c)).
  { induction evs as [|ev evs IH]; intros c Hc; [exact Hc|].
    apply IH, deliver_keeps_tableInv, Hc. }
  apply Hgen. apply map_Forall_empty.
Qed.

(** ** Updates *)

Section Updates.

Context {H : Type} `{!cache.ResourceEventHandler H}.

Implicit Types (c : NodeWeightCache H) (obj : Object) (node : v1.Node).

Lemma OnUpdate_log oldObj newObj c :
  FieldLogger (OnUpdate oldObj newObj c) =
  match newObj with
  | NodePtr _ => FieldLogger c
  | _ =>
      FieldLogger c
      ++ [Errorf_entry "OnUpdate unexpected type %T: %#v" newObj]
  end.
Proof.
  unfold OnUpdate. cbv zeta.
  match goal with
  | |- context [match Next ?c with _ => _ end] => destruct (Next c)
  end; destruct newObj; try reflexivity;
    destruct (negb _); try reflexivity; apply updateNodeWeight_frame.
Qed.

Lemma EqualIgnoringStatus_not_node oldObj node :
  isNode oldObj = false -> cmp.EqualIgnoringStatus oldObj node = false.
Proof. destruct oldObj; [reflexivity|discriminate|reflexivity..]. Qed.

End Updates.

(** C6, as claimed, fails: in the test scenario "wrong old type updated" the
    old payload is an Endpoints and the new one a node; the weight stored
    for the node changes from 10 to 5 and nothing is logged. *)
Lemma wrong_old_type_updates_table :
  let initial := Scenario.node "node1" Scenario.wa "10" in
  let old := EndpointsPtr (Scenario.endpoints "node1" Scenario.wa "15") in
  let new := NodePtr (Scenario.node "node1" Scenario.wa "5") in
  let before :=
    Scenario.run NewTestEventHandler [initial] Scenario.wa 1 None None in
  let after := OnUpdate old new before in
  isNode old = false /\ isNode new = true
  /\ nodeWeights before !! "node1" = Some 10
  /\ nodeWeights after !! "node1" = Some 5
  /\ nodeWeights after <> nodeWeights before
  /\ FieldLogger after = FieldLogger before.
Proof.
  intros initial old new before after.
  assert (Hb : nodeWeights before !! "node1" = Some 10)
    by (vm_compute; reflexivity).
  assert (Ha : nodeWeights after !! "node1" = Some 5)
    by (vm_compute; reflexivity).
  repeat split; try assumption; try reflexivity.
  intros E. rewrite E, Hb in Ha. discriminate.
Qed.

(** C6, amended. An [OnUpdate] whose new payload is not a node snapshot,
    whatever the old one, leaves the table untouched, logs one diagnostic
    and forwards the event.  An [OnUpdate] whose new payload is a node
    snapshot and whose old one is not updates the table with the weight
    resolved from the new snapshot, as [OnAdd] would, logs nothing and
    forwards the event. *)
Theorem OnUpdate_type_mismatch {H : Type} `{!cache.ResourceEventHandler H}
  (c : NodeWeightCache H) (oldObj newObj : Object) :
  (isNode newObj = false ->
   nodeWeights (OnUpdate oldObj newObj c) = nodeWeights c
   /\ FieldLogger (OnUpdate oldObj newObj c) =
      FieldLogger c ++ [Errorf_entry "OnUpdate unexpected type %T: %#v" newObj]
   /\ Next (OnUpdate oldObj newObj c) = cache.OnUpdate oldObj newObj <$> Next c)
  /\ (forall node : v1.Node,
       newObj = NodePtr node -> isNode oldObj = false ->
       nodeWeights (OnUpdate oldObj newObj c) =
         nodeWeights (OnAdd newObj c)
       /\ FieldLogger (OnUpdate oldObj newObj c) = FieldLogger c
       /\ Next (OnUpdate oldObj newObj c) =
          cache.OnUpdate oldObj newObj <$> Next c).
Proof.
  split.
  - intros Hn. rewrite OnUpdate_table, OnUpdate_log, OnUpdate_forward.
    destruct newObj; [auto|discriminate|auto..].
  - intros node -> Ho.
    rewrite OnUpdate_table, OnUpdate_log, OnUpdate_forward, OnAdd_table.
    rewrite (EqualIgnoringStatus_not_node _ _ Ho). auto.
Qed.

Lemma OnUpdate_type_mismatch_witness :
  let initial := Scenario.node "node1" Scenario.wa "10" in
  let ep := EndpointsPtr (Scenario.endpoints "node1" Scenario.wa "15") in
  let nd := Scenario.node "node1" Scenario.wa "5" in
  let c := Scenario.run NewTestEventHandler [initial] Scenario.wa 1 None None in
  (nodeWeights (OnUpdate (NodePtr nd) ep c) = nodeWeights c
   /\ FieldLogger (OnUpdate (NodePtr nd) ep c) =
      FieldLogger c ++ [Errorf_entry "OnUpdate unexpected type %T: %#v" ep]
   /\ Next (OnUpdate (NodePtr nd) ep c) =
      cache.OnUpdate (NodePtr nd) ep <$> Next c)
  /\ (nodeWeights (OnUpdate ep (NodePtr nd) c) =
        nodeWeights (OnAdd (NodePtr nd) c)
      /\ FieldLogger (OnUpdate ep (NodePtr nd) c) = FieldLogger c
      /\ Next (OnUpdate ep (NodePtr nd) c) =
         cache.OnUpdate ep (NodePtr nd) <$> Next c).
Proof.
  intros initial ep nd c. split.
  - apply (proj1 (OnUpdate_type_mismatch c (NodePtr nd) ep)). reflexivity.
  - apply (proj2 (OnUpdate_type_mismatch c ep (NodePtr nd)) nd);
      reflexivity.
Defined.

(** ** Creation of an entry *)

(** C7, as claimed, fails: the first [OnAdd] of a node annotated "0" leaves
    the table without an entry for it. *)
Lemma OnAdd_zero_creates_no_entry :
  let node1 := Scenario.node "node1" Scenario.wa "0" in
  let c := NewNodeWeightCache (H := TestEventHandler) Scenario.wa 1 in
  resolveNodeWeight (v1.ObjectMeta node1) Scenario.wa 1 = 0
  /\ nodeWeights c !! "node1" = None
  /\ nodeWeights (OnAdd (NodePtr node1) c) !! "node1" = None.
Proof. vm_compute. auto. Qed.

(** C7, amended. For a name without an entry, an [OnAdd] of a node snapshot
    of that name, or an [OnUpdate] to it from a payload that differs from it
    outside [Status], creates the entry with the resolved weight when that
    weight is not 0; when the resolved weight is 0 no entry is created and
    the table stays as it was. *)
Theorem first_event_creates_entry {H : Type} `{!cache.ResourceEventHandler H}
  (c : NodeWeightCache H) (node : v1.Node) (oldObj : Object) :
  let name := metav1.Name (v1.ObjectMeta node) in
  let weight :=
    resolveNodeWeight (v1.ObjectMeta node) (NodeWeightAnnotation c)
      (DefaultNodeWeight c) in
  nodeWeights c !! name = None ->
  nodeWeights (OnAdd (NodePtr node) c) =
    (if weight =? 0 then nodeWeights c else <[name := weight]> (nodeWeights c))
  /\ (cmp.EqualIgnoringStatus oldObj node = false ->
      nodeWeights (OnUpdate oldObj (NodePtr node) c) =
        (if weight =? 0 then nodeWeights c
         else <[name := weight]> (nodeWeights c)))
  /\ (weight <> 0 ->
      nodeWeights (OnAdd (NodePtr node) c) !! name = Some weight).
Proof.
  intros name weight Hm.
  assert (Hadd : nodeWeights (OnAdd (NodePtr node) c) =
    (if weight =? 0 then nodeWeights c else <[name := weight]> (nodeWeights c))).
  { rewrite OnAdd_table, updateNodeWeight_table. apply upsert_fresh, Hm. }
  split; [exact Hadd|]. split.
  - intros Hne. rewrite OnUpdate_table, Hne, updateNodeWeight_table.
    apply upsert_fresh, Hm.
  - intros Hw. rewrite Hadd. destruct (N.eqb_spec weight 0); [contradiction|].
    apply lookup_insert_eq.
Qed.

Lemma first_event_creates_entry_witness :
  let node1 := Scenario.node "node1" Scenario.wa "5" in
  let old := NodePtr (Scenario.node "node1" Scenario.wa "10") in
  let c := NewNodeWeightCache (H := TestEventHandler) Scenario.wa 1 in
  nodeWeights (OnAdd (NodePtr node1) c) = <["node1" := 5]> ∅
  /\ nodeWeights (OnUpdate old (NodePtr node1) c) = <["node1" := 5]> ∅
  /\ nodeWeights (OnAdd (NodePtr node1) c) !! "node1" = Some 5.
Proof.
  intros node1 old c.
  destruct (first_event_creates_entry c node1 old) as (Ha & Hu & Hl);
    [reflexivity|].
  split; [exact Ha|]. split; [apply Hu; reflexivity|].
  apply Hl. vm_compute. discriminate.
Defined.

(** ** Updates between two node snapshots *)

(** C8. An [OnUpdate] between two node snapshots that differ at most in
    [Status] writes nothing to the table.  An [OnUpdate] of a stored node
    whose new snapshot has other annotations than the old one overwrites the
    stored weight with the weight resolved from the new snapshot. *)
Theorem OnUpdate_nodes {H : Type} `{!cache.ResourceEventHandler H}
  (c : NodeWeightCache H) (old new : v1.Node) :
  (v1.ObjectMeta old = v1.ObjectMeta new -> v1.Spec old = v1.Spec new ->
   nodeWeights (OnUpdate (NodePtr old) (NodePtr new) c) = nodeWeights c)
  /\ (metav1.Annotations (v1.ObjectMeta old)
        <> metav1.Annotations (v1.ObjectMeta new) ->
      is_Some (nodeWeights c !! metav1.Name (v1.ObjectMeta new)) ->
      nodeWeights (OnUpdate (NodePtr old) (NodePtr new) c) =
        <[metav1.Name (v1.ObjectMeta new) :=
            resolveNodeWeight (v1.ObjectMeta new) (NodeWeightAnnotation c)
              (DefaultNodeWeight c)]> (nodeWeights c)).
Proof.
  split.
  - intros Hm Hs. rewrite OnUpdate_table. cbn [cmp.EqualIgnoringStatus].
    rewrite !bool_decide_eq_true_2 by assumption. reflexivity.
  - intros Ha Hst. rewrite OnUpdate_table. cbn [cmp.EqualIgnoringStatus].
    rewrite (bool_decide_eq_false_2 (v1.ObjectMeta old = v1.ObjectMeta new))
      by (intros E; apply Ha; rewrite E; reflexivity).
    cbn [andb]. rewrite updateNodeWeight_table. apply upsert_stored, Hst.
Qed.

Lemma OnUpdate_nodes_witness :
  let old := Scenario.node "node1" Scenario.wa "10" in
  let new := Scenario.node "node1" Scenario.wa "5" in
  let ready :=
    {| v1.ObjectMeta := v1.ObjectMeta old; v1.Spec := v1.Spec old;
       v1.Status := {| v1.Phase := "Running"; v1.Addresses := ["10.0.0.1"] |}
    |} in
  let c := Scenario.run NewTestEventHandler [old] Scenario.wa 1 None None in
  nodeWeights (OnUpdate (NodePtr old) (NodePtr ready) c) = nodeWeights c
  /\ nodeWeights (OnUpdate (NodePtr old) (NodePtr new) c) =
     <["node1" := 5]> (nodeWeights c).
Proof.
  intros old new ready c. split.
  - apply (proj1 (OnUpdate_nodes c old ready)); reflexivity.
  - apply (proj2 (OnUpdate_nodes c old new)).
    + vm_compute. discriminate.
    + exists 10. vm_compute. reflexivity.
Defined.

(** ** Deletes *)

(** C9. Whatever the cache has been through, an [OnDelete] of a node
    snapshot after an [OnAdd] of it leaves no entry for the node's name, and
    [GetWeightOfNode] for that name then returns the configured default.  An
    [OnDelete] of a [DeletedFinalStateUnknown] around the snapshot leaves the
    same table as the [OnDelete] of the snapshot. *)
Theorem OnDelete_removes_entry {H : Type} `{!cache.ResourceEventHandler H}
  (c : NodeWeightCache H) (node : v1.Node) (key : string) :
  let name := metav1.Name (v1.ObjectMeta node) in
  let added := OnAdd (NodePtr node) c in
  let tombstone := DeletedFinalStateUnknown key (NodePtr node) in
  nodeWeights (OnDelete (NodePtr node) added) = delete name (nodeWeights added)
  /\ nodeWeights (OnDelete (NodePtr node) added) !! name = None
  /\ GetWeightOfNode (OnDelete (NodePtr node) added) name = DefaultNodeWeight c
  /\ nodeWeights (OnDelete tombstone added) =
     nodeWeights (OnDelete (NodePtr node) added)
  /\ GetWeightOfNode (OnDelete tombstone added) name = DefaultNodeWeight c.
Proof.
  intros name added tombstone.
  assert (Hd : DefaultNodeWeight added = DefaultNodeWeight c)
    by apply OnAdd_config.
  assert (Hl : delete name (nodeWeights added) !! name = None)
    by apply lookup_delete_eq.
  rewrite !GetWeightOfNode_lookup, !OnDelete_table.
  change (deleteTable tombstone (nodeWeights added))
    with (delete name (nodeWeights added)).
  change (deleteTable (NodePtr node) (nodeWeights added))
    with (delete name (nodeWeights added)).
  rewrite Hl.
  destruct (OnDelete_config (NodePtr node) added) as [_ ->].
  destruct (OnDelete_config tombstone added) as [_ ->]. auto.
Qed.

(** ** The endpoint builders *)

(** C10. [WeightedLBEndpoint w a] is an endpoint whose address is [a] and
    whose [LoadBalancingWeight] is set, to [w], exactly when [w > 0];
    [LBEndpoint a] is [WeightedLBEndpoint 0 a]. *)
Theorem WeightedLBEndpoint_spec {Address : Type} (w : N)
  (a : option Address) :
  envoy_v3.GetAddress (envoy_v3.GetEndpoint (envoy_v3.WeightedLBEndpoint w a))
    = a
  /\ envoy_v3.LoadBalancingWeight (envoy_v3.WeightedLBEndpoint w a) =
     (if 0 <? w then Some {| protobuf.Value := w |} else None)
  /\ (is_Some (envoy_v3.LoadBalancingWeight (envoy_v3.WeightedLBEndpoint w a))
      <-> 0 < w)
  /\ envoy_v3.LBEndpoint a = envoy_v3.WeightedLBEndpoint 0 a.
Proof.
  unfold envoy_v3.WeightedLBEndpoint. cbv zeta.
  destruct (N.ltb_spec 0 w) as [Hw|Hw]; cbn; repeat split; eauto.
  - intros [? [=]].
  - lia.
Qed.

Lemma WeightedLBEndpoint_spec_witness :
  envoy_v3.LoadBalancingWeight (envoy_v3.WeightedLBEndpoint 5 (Some tt))
    = Some {| protobuf.Value := 5 |}
  /\ is_Some
       (envoy_v3.LoadBalancingWeight (envoy_v3.WeightedLBEndpoint 5 (Some tt)))
  /\ envoy_v3.LoadBalancingWeight (envoy_v3.WeightedLBEndpoint 0 (Some tt))
     = None.
Proof.
  destruct (WeightedLBEndpoint_spec 5 (Some tt)) as (_ & Hw & Hset & _).
  destruct (WeightedLBEndpoint_spec 0 (Some tt)) as (_ & Hz & _ & _).
  split; [exact Hw|]. split; [apply Hset; lia|exact Hz].
Defined.

(** ** The table as a function of the events *)

Section TableStep.

Context {H : Type} `{!cache.ResourceEventHandler H}.

Implicit Types (c : NodeWeightCache H) (obj : Object) (node : v1.Node).

Lemma deliver_table ev c :
  nodeWeights (deliver ev c) =
  tableStep (NodeWeightAnnotation c) (DefaultNodeWeight c) ev (nodeWeights c).
Proof.
  destruct ev as [obj|oldObj newObj|obj]; cbn [deliver tableStep].
  - rewrite OnAdd_table. destruct obj; try reflexivity.
    apply updateNodeWeight_table.
  - rewrite OnUpdate_table. destruct newObj; try reflexivity.
    destruct (cmp.EqualIgnoringStatus _ _); [reflexivity|].
    apply updateNodeWeight_table.
  - apply OnDelete_table.
Qed.

Lemma deliverAll_table evs c :
  nodeWeights (deliverAll evs c) =
  fold_left
    (fun m ev => tableStep (NodeWeightAnnotation c) (DefaultNodeWeight c) ev m)
    evs (nodeWeights c).
Proof.
  revert c. induction evs as [|ev evs IH]; intros c; [reflexivity|].
  change (deliverAll (ev :: evs) c) with (deliverAll evs (deliver ev c)).
  rewrite IH. destruct (deliver_config ev c) as [-> ->].
  rewrite deliver_table. reflexivity.
Qed.

End TableStep.

Lemma upsert_idemp (name : string) (weight : N) (m : gmap string N) :
  upsert name weight (upsert name weight m) = upsert name weight m.
Proof.
  unfold upsert at 1. rewrite upsert_read, N.eqb_refl. reflexivity.
Qed.

Lemma deleteTable_idemp (obj : Object) (m : gmap string N) :
  deleteTable obj (deleteTable obj m) = deleteTable obj m.
Proof.
  revert m. induction obj as [|node| |key inner IH]; intros m; cbn; auto.
  apply delete_id, lookup_delete_eq.
Qed.

Lemma tableStep_idemp (key : string) (default : N) (ev : Event)
  (m : gmap string N) :
  tableStep key default ev (tableStep key default ev m) =
  tableStep key default ev m.
Proof.
  destruct ev as [obj|oldObj newObj|obj]; cbn [tableStep].
  - destruct obj; try reflexivity. apply upsert_idemp.
  - destruct newObj; try reflexivity.
    destruct (cmp.EqualIgnoringStatus _ _); [reflexivity|apply upsert_idemp].
  - apply deleteTable_idemp.
Qed.

Lemma deleteTable_lookup_other (obj : Object) (m : gmap string N)
  (name : string) :
  existsb (String.eqb name) (nodeNames obj) = false ->
  deleteTable obj m !! name = m !! name.
Proof.
  revert m. induction obj as [|node| |key inner IH]; intros m Hn; cbn; auto.
  apply lookup_delete_ne. intros E. apply existsb_eqb_false in Hn.
  apply Hn. cbn. auto.
Qed.

Lemma tableStep_lookup_other (key : string) (default : N) (ev : Event)
  (m : gmap string N) (name : string) :
  existsb (String.eqb name) (eventNodeNames ev) = false ->
  tableStep key default ev m !! name = m !! name.
Proof.
  intros Hn. destruct ev as [obj|oldObj newObj|obj]; cbn [tableStep].
  - destruct obj; try reflexivity. apply upsert_lookup_ne.
    intros E. apply existsb_eqb_false in Hn. apply Hn. cbn. auto.
  - destruct newObj; try reflexivity.
    destruct (cmp.EqualIgnoringStatus _ _); [reflexivity|].
    apply upsert_lookup_ne. intros E. apply existsb_eqb_false in Hn.
    apply Hn. cbn. apply in_or_app. right. cbn. auto.
  - apply deleteTable_lookup_other, Hn.
Qed.

(** X1. Delivering an event a second time right after the first leaves the
    table as the first delivery left it, and so the weight read for every
    name. *)
Theorem deliver_twice_table {H : Type} `{!cache.ResourceEventHandler H}
  (ev : Event) (c : NodeWeightCache H) (name : string) :
  nodeWeights (deliver ev (deliver ev c)) = nodeWeights (deliver ev c)
  /\ GetWeightOfNode (deliver ev (deliver ev c)) name =
     GetWeightOfNode (deliver ev c) name.
Proof.
  assert (Ht : nodeWeights (deliver ev (deliver ev c)) =
               nodeWeights (deliver ev c)).
  { rewrite (deliver_table ev (deliver ev c)).
    destruct (deliver_config ev c) as [-> ->].
    rewrite deliver_table. apply tableStep_idemp. }
  split; [exact Ht|]. unfold GetWeightOfNode. rewrite Ht.
  destruct (deliver_config ev (deliver ev c)) as [_ ->]. reflexivity.
Qed.

(** X2. An event leaves alone the entry of every name that is not the name
    of a node the event carries. *)
Theorem deliver_other_names {H : Type} `{!cache.ResourceEventHandler H}
  (ev : Event) (c : NodeWeightCache H) (name : string) :
  existsb (String.eqb name) (eventNodeNames ev) = false ->
  nodeWeights (deliver ev c) !! name = nodeWeights c !! name
  /\ GetWeightOfNode (deliver ev c) name = GetWeightOfNode c name.
Proof.
  intros Hn.
  assert (Ht : nodeWeights (deliver ev c) !! name = nodeWeights c !! name).
  { rewrite deliver_table. apply tableStep_lookup_other, Hn. }
  split; [exact Ht|]. unfold GetWeightOfNode. rewrite Ht.
  destruct (deliver_config ev c) as [_ ->]. reflexivity.
Qed.

Lemma deliver_other_names_witness :
  let c :=
    Scenario.run NewTestEventHandler [Scenario.node "node1" Scenario.wa "5"]
      Scenario.wa 1 None None in
  let ev := Delete (NodePtr (Scenario.node "node2" Scenario.wa "7")) in
  nodeWeights (deliver ev c) !! "node1" = nodeWeights c !! "node1"
  /\ GetWeightOfNode (deliver ev c) "node1" = GetWeightOfNode c "node1".
Proof.
  intros c ev. apply (deliver_other_names ev c "node1"). reflexivity.
Defined.

(** X3. The table a cache reaches depends on its key, its default and its
    table alone: two caches that agree on these, whatever their next
    handlers and logs, agree on them after the same events and answer
    [GetWeightOfNode] alike. *)
Theorem table_independent_of_next {H1 H2 : Type}
  `{!cache.ResourceEventHandler H1} `{!cache.ResourceEventHandler H2}
  (c1 : NodeWeightCache H1) (c2 : NodeWeightCache H2) (evs : list Event)
  (name : string) :
  NodeWeightAnnotation c1 = NodeWeightAnnotation c2 ->
  DefaultNodeWeight c1 = DefaultNodeWeight c2 ->
  nodeWeights c1 = nodeWeights c2 ->
  nodeWeights (deliverAll evs c1) = nodeWeights (deliverAll evs c2)
  /\ GetWeightOfNode (deliverAll evs c1) name =
     GetWeightOfNode (deliverAll evs c2) name.
Proof.
  intros Hk Hd Hm.
  assert (Ht : nodeWeights (deliverAll evs c1) =
               nodeWeights (deliverAll evs c2)).
  { rewrite !deliverAll_table, Hk, Hd, Hm. reflexivity. }
  split; [exact Ht|]. unfold GetWeightOfNode. rewrite Ht.
  destruct (deliverAll_config evs c1) as [_ ->].
  destruct (deliverAll_config evs c2) as [_ ->]. rewrite Hd. reflexivity.
Qed.

Lemma table_independent_of_next_witness :
  let evs :=
    [Add (NodePtr (Scenario.node "node1" Scenario.wa "5"));
     Delete (DeletedFinalStateUnknown "node2"
               (NodePtr (Scenario.node "node2" Scenario.wa "7")))] in
  let c1 := NewNodeWeightCache (H := TestEventHandler) Scenario.wa 1 in
  let c2 :=
    setNext (Some {| calls := [] |})
      (NewNodeWeightCache (H := Recorder) Scenario.wa 1) in
  nodeWeights (deliverAll evs c1) = nodeWeights (deliverAll evs c2)
  /\ GetWeightOfNode (deliverAll evs c1) "node1" =
     GetWeightOfNode (deliverAll evs c2) "node1".
Proof.
  intros evs c1 c2.
  apply (table_independent_of_next c1 c2 evs "node1"); reflexivity.
Defined.

(** X4. No event changes the annotation key or the default weight of a
    cache, however many are delivered. *)
Theorem configuration_immutable {H : Type} `{!cache.ResourceEventHandler H}
  (evs : list Event) (c : NodeWeightCache H) :
  NodeWeightAnnotation (deliverAll evs c) = NodeWeightAnnotation c
  /\ DefaultNodeWeight (deliverAll evs c) = DefaultNodeWeight c.
Proof. apply deliverAll_config. Qed.

(** ** What the next handler and the log receive *)

Lemma replay_Recorder (cs : list Call) (r : Recorder) :
  replay cs r = {| calls := calls r ++ cs |}.
Proof.
  revert r. induction cs as [|call cs IH]; intros [l].
  - cbn. rewrite app_nil_r. reflexivity.
  - change (replay (call :: cs) {| calls := l |})
      with (replay cs (replay [call] {| calls := l |})).
    rewrite IH. destruct call; cbn; rewrite <- app_assoc; reflexivity.
Qed.

Lemma last_deleteCalls (obj : Object) :
  last (deleteCalls obj) = Some (DeleteCall obj).
Proof. destruct obj; try reflexivity. cbn [deleteCalls]. apply last_snoc. Qed.

Lemma length_deleteCalls_depth (obj : Object) :
  length (deleteCalls obj) = S (depth obj).
Proof.
  induction obj as [| | |key inner IH]; try reflexivity.
  cbn [deleteCalls depth]. rewrite length_app, IH. cbn. lia.
Qed.

Section Outside.

Context {H : Type} `{!cache.ResourceEventHandler H}.

Implicit Types (c : NodeWeightCache H) (obj : Object) (node : v1.Node).

Lemma deliver_forward ev c :
  Next (deliver ev c) = replay (eventCalls ev) <$> Next c.
Proof.
  destruct ev as [obj|oldObj newObj|obj]; cbn [deliver eventCalls].
  - apply OnAdd_forward.
  - apply OnUpdate_forward.
  - apply OnDelete_forward.
Qed.

Lemma deliverAll_forward evs c :
  Next (deliverAll evs c) = replay (concat (map eventCalls evs)) <$> Next c.
Proof.
  revert c. induction evs as [|ev evs IH]; intros c.
  - cbn. destruct (Next c); reflexivity.
  - change (deliverAll (ev :: evs) c) with (deliverAll evs (deliver ev c)).
    rewrite IH, deliver_forward. cbn [map concat].
    destruct (Next c); cbn; [rewrite replay_app|]; reflexivity.
Qed.

Lemma OnAdd_log obj c :
  FieldLogger (OnAdd obj c) = FieldLogger c ++ diagnostics (Add obj).
Proof.
  unfold OnAdd. cbv zeta.
  match goal with
  | |- context [match Next ?c with _ => _ end] => destruct (Next c)
  end; destruct obj; cbn; rewrite ?app_nil_r; try reflexivity;
    apply updateNodeWeight_frame.
Qed.

Lemma OnDelete_log obj c :
  FieldLogger (OnDelete obj c) = FieldLogger c ++ deleteLog obj.
Proof.
  revert c. induction obj as [| | |key inner IH]; intros c; simpl;
    try (destruct (Next c); cbn; rewrite ?app_nil_r; reflexivity).
  specialize (IH c). destruct (Next (OnDelete inner c)); exact IH.
Qed.

Lemma deliver_log ev c :
  FieldLogger (deliver ev c) = FieldLogger c ++ diagnostics ev.
Proof.
  destruct ev as [obj|oldObj newObj|obj]; cbn [deliver].
  - apply OnAdd_log.
  - rewrite OnUpdate_log. destruct newObj; cbn; rewrite ?app_nil_r;
      reflexivity.
  - apply OnDelete_log.
Qed.

End Outside.

(** X5. The next handler receives the calls of the delivered events in the
    order of delivery and none is left out: an add gives one [OnAdd] and an
    update one [OnUpdate], each with the arguments of the event, and a delete
    gives the [OnDelete] calls of its payload.  Without a next handler there
    is none afterwards either. *)
Theorem forwarding_in_order {H : Type} `{!cache.ResourceEventHandler H}
  (evs : list Event) (c : NodeWeightCache H) :
  Next (deliverAll evs c) = replay (concat (map eventCalls evs)) <$> Next c
  /\ (forall obj, eventCalls (Add obj) = [AddCall obj])
  /\ (forall oldObj newObj,
        eventCalls (Update oldObj newObj) = [UpdateCall oldObj newObj])
  /\ (forall obj, last (eventCalls (Delete obj)) = Some (DeleteCall obj)).
Proof.
  split; [apply deliverAll_forward|]. repeat split.
  intros obj. apply last_deleteCalls.
Qed.

Lemma head_deleteCalls (obj : Object) :
  head (deleteCalls obj) = Some (DeleteCall (innermost obj)).
Proof.
  induction obj as [| | |key inner IH]; try reflexivity.
  cbn [deleteCalls innermost].
  destruct (deleteCalls inner); [discriminate|exact IH].
Qed.

(** X6. One [OnDelete] calls the next handler once more than its payload has
    [DeletedFinalStateUnknown] layers: a handler that keeps its calls gets
    them appended, the innermost object first and the payload itself last. *)
Theorem OnDelete_calls_per_layer (obj : Object) (c : NodeWeightCache Recorder) :
  calls <$> Next (OnDelete obj c) =
    (fun r => calls r ++ deleteCalls obj) <$> Next c
  /\ length (deleteCalls obj) = S (depth obj)
  /\ head (deleteCalls obj) = Some (DeleteCall (innermost obj))
  /\ last (deleteCalls obj) = Some (DeleteCall obj).
Proof.
  split.
  { rewrite OnDelete_forward. destruct (Next c) as [r|]; [|reflexivity].
    cbn. rewrite replay_Recorder. reflexivity. }
  split; [apply length_deleteCalls_depth|].
  split; [apply head_deleteCalls|apply last_deleteCalls].
Qed.

(** ** Payloads that are not nodes *)

Lemma deleteTable_wrap (keys : list string) (obj : Object)
  (m : gmap string N) :
  deleteTable (wrap keys obj) m = deleteTable obj m.
Proof. induction keys as [|key keys IH]; [reflexivity|exact IH]. Qed.

Lemma depth_wrap_node (keys : list string) (node : v1.Node) :
  depth (wrap keys (NodePtr node)) = length keys.
Proof. induction keys as [|key keys IH]; [reflexivity|]. cbn. f_equal. exact IH. Qed.

(** X7. An [OnDelete] of a node under any number of
    [DeletedFinalStateUnknown] layers removes the entry of the node's name,
    as the [OnDelete] of the node itself does, and [GetWeightOfNode] for the
    name is then the default; nothing is logged. *)
Theorem OnDelete_nested_tombstone {H : Type} `{!cache.ResourceEventHandler H}
  (keys : list string) (node : v1.Node) (c : NodeWeightCache H) :
  let name := metav1.Name (v1.ObjectMeta node) in
  let c' := OnDelete (wrap keys (NodePtr node)) c in
  nodeWeights c' = delete name (nodeWeights c)
  /\ nodeWeights c' = nodeWeights (OnDelete (NodePtr node) c)
  /\ GetWeightOfNode c' name = DefaultNodeWeight c
  /\ FieldLogger c' = FieldLogger c.
Proof.
  intros name c'. subst c'.
  assert (Ht : nodeWeights (OnDelete (wrap keys (NodePtr node)) c) =
               delete name (nodeWeights c)).
  { rewrite OnDelete_table, deleteTable_wrap. reflexivity. }
  split; [exact Ht|]. split; [rewrite Ht, OnDelete_table; reflexivity|]. split.
  - unfold GetWeightOfNode. rewrite Ht, lookup_delete_eq. cbn.
    apply OnDelete_config.
  - rewrite OnDelete_log.
    assert (Hl : deleteLog (wrap keys (NodePtr node)) = []).
    { clear Ht. induction keys as [|key keys IH]; [reflexivity|exact IH]. }
    rewrite Hl. apply app_nil_r.
Qed.

(** X8. An [OnAdd] of a payload that is not a node leaves the table as it
    was, appends one diagnostic that holds the payload to the log, and calls
    the next handler once, with the payload. *)
Theorem OnAdd_unexpected_type {H : Type} `{!cache.ResourceEventHandler H}
  (obj : Object) (c : NodeWeightCache H) :
  isNode obj = false ->
  nodeWeights (OnAdd obj c) = nodeWeights c
  /\ FieldLogger (OnAdd obj c) =
     FieldLogger c ++ [Errorf_entry "OnAdd unexpected type %T: %#v" obj]
  /\ Next (OnAdd obj c) = cache.OnAdd obj <$> Next c.
Proof.
  intros Hn. rewrite OnAdd_table, OnAdd_log, OnAdd_forward. cbn [diagnostics].
  rewrite Hn. destruct obj; [auto|discriminate|auto..].
Qed.

Lemma OnAdd_unexpected_type_witness :
  let ep := EndpointsPtr (Scenario.endpoints "node1" Scenario.wa "10000") in
  let c :=
    setNext (Some NewTestEventHandler) (NewNodeWeightCache Scenario.wa 1) in
  nodeWeights (OnAdd ep c) = nodeWeights c
  /\ FieldLogger (OnAdd ep c) =
     FieldLogger c ++ [Errorf_entry "OnAdd unexpected type %T: %#v" ep]
  /\ Next (OnAdd ep c) = cache.OnAdd ep <$> Next c.
Proof. intros ep c. apply (OnAdd_unexpected_type ep c). reflexivity. Defined.

(** X9. An [OnDelete] whose payload holds no node under its wrappers, if any,
    leaves the table as it was and appends one diagnostic to the log; the
    diagnostic holds the innermost object, not the payload. *)
Theorem OnDelete_unexpected_type {H : Type} `{!cache.ResourceEventHandler H}
  (obj : Object) (c : NodeWeightCache H) :
  isNode (innermost obj) = false ->
  nodeWeights (OnDelete obj c) = nodeWeights c
  /\ FieldLogger (OnDelete obj c) =
     FieldLogger c
     ++ [Errorf_entry "OnDelete unexpected type %T: %#v" (innermost obj)].
Proof.
  intros Hn. rewrite OnDelete_table, OnDelete_log.
  induction obj as [|node| |key inner IH]; cbn in *; auto. discriminate.
Qed.

Lemma OnDelete_unexpected_type_witness :
  let ep := EndpointsPtr (Scenario.endpoints "node1" Scenario.wa "5") in
  let c :=
    Scenario.run NewTestEventHandler [Scenario.node "node1" Scenario.wa "5"]
      Scenario.wa 1 None None in
  nodeWeights (OnDelete (DeletedFinalStateUnknown "node1" ep) c) =
    nodeWeights c
  /\ FieldLogger (OnDelete (DeletedFinalStateUnknown "node1" ep) c) =
     FieldLogger c ++ [Errorf_entry "OnDelete unexpected type %T: %#v" ep].
Proof.
  intros ep c.
  apply (OnDelete_unexpected_type (DeletedFinalStateUnknown "node1" ep) c).
  reflexivity.
Defined.

(** X10. The log only grows: after any events it is the log before them
    followed by the diagnostics of the events in order, and an add of a
    node, an update to a node or a delete of a node contributes none. *)
Theorem log_of_events {H : Type} `{!cache.ResourceEventHandler H}
  (evs : list Event) (c : NodeWeightCache H) :
  FieldLogger (deliverAll evs c) =
    FieldLogger c ++ concat (map diagnostics evs)
  /\ (forall (node : v1.Node) (oldObj : Object),
       diagnostics (Add (NodePtr node)) = []
       /\ diagnostics (Update oldObj (NodePtr node)) = []
       /\ diagnostics (Delete (NodePtr node)) = []).
Proof.
  split; [|intros; repeat split].
  revert c. induction evs as [|ev evs IH]; intros c.
  - cbn. rewrite app_nil_r. reflexivity.
  - change (deliverAll (ev :: evs) c) with (deliverAll evs (deliver ev c)).
    rewrite IH, deliver_log. cbn [map concat]. rewrite app_assoc. reflexivity.
Qed.

(** ** What [GetWeightOfNode] can return *)

Lemma GetWeightOfNode_range {H : Type} (c : NodeWeightCache H)
  (name : string) :
  tableInv c ->
  GetWeightOfNode c name <= 128 \/ GetWeightOfNode c name = DefaultNodeWeight c.
Proof.
  intros Hinv. unfold GetWeightOfNode.
  destruct (nodeWeights c !! name) as [v|] eqn:Hv; cbn; [|auto].
  destruct (N.eqb_spec v 0); [auto|]. exact (Hinv name v Hv).
Qed.

(** X11. Whatever events a cache built by [NewNodeWeightCache] has received,
    the weight [GetWeightOfNode] returns is at most 128 or is the default,
    so at most 128 when the default is; and it is 0 only when the default
    is 0. *)
Theorem GetWeightOfNode_reachable {H : Type} `{!cache.ResourceEventHandler H}
  (next : option H) (key : string) (dweight : N) (evs : list Event)
  (name : string) :
  let weight :=
    GetWeightOfNode
      (deliverAll evs (setNext next (NewNodeWeightCache key dweight))) name in
  (weight <= 128 \/ weight = dweight)
  /\ (dweight <= 128 -> weight <= 128)
  /\ (weight = 0 -> dweight = 0).
Proof.
  intros weight.
  set (c' := deliverAll evs (setNext next (NewNodeWeightCache key dweight))).
  assert (Hd : DefaultNodeWeight c' = dweight).
  { apply (deliverAll_config evs
             (setNext next (NewNodeWeightCache key dweight))). }
  assert (Hr : weight <= 128 \/ weight = dweight).
  { rewrite <- Hd. apply GetWeightOfNode_range, deliverAll_tableInv. }
  split; [exact Hr|]. split; [intros Hle; destruct Hr; lia|].
  subst weight. fold c'. unfold GetWeightOfNode. rewrite Hd.
  destruct (N.eqb_spec (default 0 (nodeWeights c' !! name)) 0); auto.
  intros E. contradiction.
Qed.

Lemma GetWeightOfNode_reachable_witness :
  let evs :=
    [Add (NodePtr (Scenario.node "node1" Scenario.wa "4294967295"));
     Add (NodePtr (Scenario.node "node2" Scenario.wa "0"))] in
  let c :=
    deliverAll evs
      (setNext (Some NewTestEventHandler) (NewNodeWeightCache Scenario.wa 7)) in
  GetWeightOfNode c "node1" <= 128 /\ GetWeightOfNode c "node2" <> 0.
Proof.
  intros evs c. split.
  - apply (GetWeightOfNode_reachable (Some NewTestEventHandler) Scenario.wa 7
             evs "node1").
    vm_compute. discriminate.
  - intros E.
    apply (GetWeightOfNode_reachable (Some NewTestEventHandler) Scenario.wa 7
             evs "node2") in E.
    discriminate E.
Defined.

(** X12. [GetWeightOfNode] after the [OnAdd] of a node returns the resolved
    weight of the node, or the default when that weight is 0, whatever the
    table held before.  So it returns the default when the annotation is
    absent, when its value does not parse, and when it parses above 128. *)
Theorem OnAdd_then_read {H : Type} `{!cache.ResourceEventHandler H}
  (c : NodeWeightCache H) (node : v1.Node) :
  let key := NodeWeightAnnotation c in
  let dweight := DefaultNodeWeight c in
  let annotation := mapIndex (metav1.Annotations (v1.ObjectMeta node)) key in
  let weight :=
    GetWeightOfNode (OnAdd (NodePtr node) c)
      (metav1.Name (v1.ObjectMeta node)) in
  weight =
    (if resolveNodeWeight (v1.ObjectMeta node) key dweight =? 0 then dweight
     else resolveNodeWeight (v1.ObjectMeta node) key dweight)
  /\ (annotation = None -> weight = dweight)
  /\ (forall value, annotation = Some value ->
        Spec.parseUint32 value = None -> weight = dweight)
  /\ (forall value parsed, annotation = Some value ->
        Spec.parseUint32 value = Some parsed -> 128 < parsed ->
        weight = dweight).
Proof.
  intros key dweight annotation weight.
  assert (Hw : weight =
    (if resolveNodeWeight (v1.ObjectMeta node) key dweight =? 0 then dweight
     else resolveNodeWeight (v1.ObjectMeta node) key dweight)).
  { subst weight. unfold GetWeightOfNode. cbv zeta.
    rewrite OnAdd_table, updateNodeWeight_table, upsert_read.
    destruct (OnAdd_config (NodePtr node) c) as [_ ->]. reflexivity. }
  assert (Hdef : resolveNodeWeight (v1.ObjectMeta node) key dweight = dweight
                 -> weight = dweight).
  { intros E. rewrite Hw, E. destruct (N.eqb_spec dweight 0); congruence. }
  split; [exact Hw|].
  split; [|split].
  - intros Ha. apply Hdef. rewrite resolveNodeWeight_resolve.
    unfold Spec.resolve. fold annotation. rewrite Ha. reflexivity.
  - intros value Ha Hp. apply Hdef. rewrite resolveNodeWeight_resolve.
    unfold Spec.resolve. fold annotation. rewrite Ha, Hp. reflexivity.
  - intros value parsed Ha Hp Hlt. apply Hdef.
    rewrite resolveNodeWeight_resolve.
    unfold Spec.resolve. fold annotation. rewrite Ha, Hp.
    destruct (N.ltb_spec 128 parsed); [reflexivity|lia].
Qed.

Lemma OnAdd_then_read_witness :
  let c := NewNodeWeightCache (H := TestEventHandler) Scenario.wa 3 in
  let read (node : v1.Node) :=
    GetWeightOfNode (OnAdd (NodePtr node) c)
      (metav1.Name (v1.ObjectMeta node)) in
  read (Scenario.node "node1" "not a weight-annotation" "5") = 3
  /\ read (Scenario.node "node1" Scenario.wa "+5") = 3
  /\ read (Scenario.node "node1" Scenario.wa "129") = 3.
Proof.
  intros c read. split; [|split].
  - apply (OnAdd_then_read c
             (Scenario.node "node1" "not a weight-annotation" "5")).
    reflexivity.
  - apply (OnAdd_then_read c (Scenario.node "node1" Scenario.wa "+5"))
      with (value := "+5"); reflexivity.
  - apply (OnAdd_then_read c (Scenario.node "node1" Scenario.wa "129"))
      with (value := "129") (parsed := 129); reflexivity.
Defined.

(** X13. An update compares the two payloads, not the new payload with the
    table: after the [OnDelete] of a node, an [OnUpdate] between two
    snapshots that agree outside [Status] does not bring the entry back, and
    [GetWeightOfNode] keeps returning the default. *)
Theorem OnUpdate_after_delete {H : Type} `{!cache.ResourceEventHandler H}
  (c : NodeWeightCache H) (deleted old new : v1.Node) :
  let name := metav1.Name (v1.ObjectMeta new) in
  let c' :=
    OnUpdate (NodePtr old) (NodePtr new) (OnDelete (NodePtr deleted) c) in
  metav1.Name (v1.ObjectMeta deleted) = name ->
  v1.ObjectMeta old = v1.ObjectMeta new -> v1.Spec old = v1.Spec new ->
  nodeWeights c' !! name = None
  /\ GetWeightOfNode c' name = DefaultNodeWeight c.
Proof.
  intros name c' Hname Hm Hs.
  assert (Ht : nodeWeights c' !! name = None).
  { subst c'. rewrite OnUpdate_table. cbn [cmp.EqualIgnoringStatus].
    rewrite !bool_decide_eq_true_2 by assumption. cbn [andb].
    rewrite OnDelete_table. cbn [deleteTable]. rewrite Hname.
    apply lookup_delete_eq. }
  split; [exact Ht|]. unfold GetWeightOfNode. rewrite Ht. cbn.
  subst c'. destruct (OnUpdate_config (NodePtr old) (NodePtr new)
                        (OnDelete (NodePtr deleted) c)) as [_ ->].
  apply OnDelete_config.
Qed.

Lemma OnUpdate_after_delete_witness :
  let node1 := Scenario.node "node1" Scenario.wa "5" in
  let ready :=
    {| v1.ObjectMeta := v1.ObjectMeta node1; v1.Spec := v1.Spec node1;
       v1.Status := {| v1.Phase := "Running"; v1.Addresses := ["10.0.0.1"] |}
    |} in
  let c :=
    Scenario.run NewTestEventHandler [node1] Scenario.wa 1 None None in
  let c' :=
    OnUpdate (NodePtr node1) (NodePtr ready) (OnDelete (NodePtr node1) c) in
  GetWeightOfNode c "node1" = 5
  /\ nodeWeights c' !! "node1" = None
  /\ GetWeightOfNode c' "node1" = 1.
Proof.
  intros node1 ready c c'. split; [reflexivity|].
  apply (OnUpdate_after_delete c node1 node1 ready); reflexivity.
Defined.

(** X14. An [OnDelete] of a node whose name has no entry leaves the table as
    it was. *)
Theorem OnDelete_absent {H : Type} `{!cache.ResourceEventHandler H}
  (c : NodeWeightCache H) (node : v1.Node) :
  nodeWeights c !! metav1.Name (v1.ObjectMeta node) = None ->
  nodeWeights (OnDelete (NodePtr node) c) = nodeWeights c.
Proof.
  intros Hm. rewrite OnDelete_table. cbn [deleteTable]. apply delete_id, Hm.
Qed.

Lemma OnDelete_absent_witness :
  let c :=
    Scenario.run NewTestEventHandler [Scenario.node "node1" Scenario.wa "5"]
      Scenario.wa 1 None None in
  nodeWeights (OnDelete (NodePtr (Scenario.node "node2" Scenario.wa "7")) c)
  = nodeWeights c.
Proof.
  intros c.
  apply (OnDelete_absent c (Scenario.node "node2" Scenario.wa "7")).
  reflexivity.
Defined.

(** ** Localities and cluster load assignments *)

Section Assignments.

Context {Address : Type} (UInt32OrNil : N -> option protobuf.UInt32Value).

Implicit Types (addrs : list (option Address)) (weight : N).

Lemma append_loop addrs (acc : list (envoy_v3.LbEndpoint Address)) :
  fold_left (fun lbendpoints addr => lbendpoints ++ [envoy_v3.LBEndpoint addr])
    addrs acc
  = acc ++ map envoy_v3.LBEndpoint addrs.
Proof.
  revert acc. induction addrs as [|addr addrs IH]; intros acc; cbn.
  - rewrite app_nil_r. reflexivity.
  - rewrite IH, <- app_assoc. reflexivity.
Qed.

Lemma WeightedEndpoints_map weight addrs :
  envoy_v3.WeightedEndpoints UInt32OrNil weight addrs =
  [ {| envoy_v3.envoy_endpoint_v3.LbEndpoints :=
         map envoy_v3.LBEndpoint addrs;
       envoy_v3.envoy_endpoint_v3.LoadBalancingWeight := UInt32OrNil weight |} ].
Proof. unfold envoy_v3.WeightedEndpoints. rewrite append_loop. reflexivity. Qed.

Lemma addressOf_LBEndpoint addrs :
  map addressOf (map envoy_v3.LBEndpoint addrs) = addrs.
Proof.
  induction addrs as [|addr addrs IH]; [reflexivity|].
  cbn [map]. rewrite IH. reflexivity.
Qed.

(** X15. [WeightedEndpoints] returns one locality, which holds one endpoint
    per address in the order given: reading the addresses of its endpoints
    gives back the addresses supplied.  Its weight is what
    [protobuf.UInt32OrNil] makes of the weight supplied. *)
Theorem WeightedEndpoints_addresses weight addrs :
  exists locality,
    envoy_v3.WeightedEndpoints UInt32OrNil weight addrs = [locality]
    /\ map addressOf (envoy_v3.envoy_endpoint_v3.LbEndpoints locality) = addrs
    /\ length (envoy_v3.envoy_endpoint_v3.LbEndpoints locality) = length addrs
    /\ envoy_v3.envoy_endpoint_v3.LoadBalancingWeight locality
       = UInt32OrNil weight.
Proof.
  rewrite WeightedEndpoints_map. eexists. split; [reflexivity|]. cbn.
  split; [apply addressOf_LBEndpoint|]. split; [apply length_map|reflexivity].
Qed.

(** X16. The weight given to [WeightedEndpoints] reaches the locality only:
    no endpoint of the result has its own [LoadBalancingWeight] set, and the
    endpoints are those of [Endpoints] on the same addresses, which is
    [WeightedEndpoints] at weight 0. *)
Theorem WeightedEndpoints_endpoint_weights weight addrs :
  Forall (fun e => envoy_v3.LoadBalancingWeight e = None)
    (concat (map envoy_v3.envoy_endpoint_v3.LbEndpoints
               (envoy_v3.WeightedEndpoints UInt32OrNil weight addrs)))
  /\ map envoy_v3.envoy_endpoint_v3.LbEndpoints
       (envoy_v3.WeightedEndpoints UInt32OrNil weight addrs)
     = map envoy_v3.envoy_endpoint_v3.LbEndpoints
         (envoy_v3.Endpoints UInt32OrNil addrs)
  /\ envoy_v3.Endpoints UInt32OrNil addrs
     = envoy_v3.WeightedEndpoints UInt32OrNil 0 addrs.
Proof.
  unfold envoy_v3.Endpoints. rewrite !WeightedEndpoints_map. cbn.
  rewrite app_nil_r. repeat split.
  induction addrs as [|addr addrs IH]; constructor; [reflexivity|exact IH].
Qed.

(** X17. [ClusterLoadAssignment] keeps the name.  Without addresses it has
    no locality at all; with some it has the one locality of [Endpoints].
    Either way the addresses of its endpoints, read in order, are the
    addresses supplied. *)
Theorem ClusterLoadAssignment_spec (name : string) addrs :
  let cla := envoy_v3.ClusterLoadAssignment UInt32OrNil name addrs in
  envoy_v3.envoy_endpoint_v3.ClusterName cla = name
  /\ length (envoy_v3.envoy_endpoint_v3.Endpoints cla)
     = (if Nat.eqb (length addrs) 0 then 0 else 1)%nat
  /\ (addrs = [] -> envoy_v3.envoy_endpoint_v3.Endpoints cla = [])
  /\ (addrs <> [] ->
      envoy_v3.envoy_endpoint_v3.Endpoints cla
      = envoy_v3.Endpoints UInt32OrNil addrs)
  /\ concat (map (fun locality =>
                    map addressOf
                      (envoy_v3.envoy_endpoint_v3.LbEndpoints locality))
               (envoy_v3.envoy_endpoint_v3.Endpoints cla))
     = addrs.
Proof.
  intros cla. subst cla. unfold envoy_v3.ClusterLoadAssignment.
  destruct addrs as [|addr addrs]; cbn [length Nat.eqb].
  - cbn. repeat split; congruence.
  - unfold envoy_v3.Endpoints. rewrite WeightedEndpoints_map.
    cbn [envoy_v3.envoy_endpoint_v3.ClusterName
         envoy_v3.envoy_endpoint_v3.Endpoints
         envoy_v3.envoy_endpoint_v3.LbEndpoints length map concat].
    rewrite app_nil_r.
    repeat split; try discriminate.
    apply (addressOf_LBEndpoint (addr :: addrs)).
Qed.

End Assignments.

Lemma ClusterLoadAssignment_spec_witness :
  let U (n : N) : option protobuf.UInt32Value := None in
  envoy_v3.envoy_endpoint_v3.Endpoints
    (envoy_v3.ClusterLoadAssignment (Address := nat) U "cluster" []) = []
  /\ envoy_v3.envoy_endpoint_v3.Endpoints
       (envoy_v3.ClusterLoadAssignment U "cluster" [Some 1%nat; None])
     = envoy_v3.Endpoints U [Some 1%nat; None].
Proof.
  intros U. split.
  - apply (ClusterLoadAssignment_spec U "cluster" []). reflexivity.
  - apply (ClusterLoadAssignment_spec U "cluster" [Some 1%nat; None]).
    discriminate.
Defined.

(** ** The handler of the test *)

(** X18. The flags of the test's handler tell which kinds of callback it has
    received and nothing more: after any calls a flag is set exactly when it
    was set before or a call of its kind is among them, so a second call of
    a kind changes nothing. *)
Theorem TestEventHandler_flags (cs : list Call) (h : TestEventHandler) :
  addCalled (replay cs h) = addCalled h || existsb isAddCall cs
  /\ updateCalled (replay cs h) = updateCalled h || existsb isUpdateCall cs
  /\ deleteCalled (replay cs h) = deleteCalled h || existsb isDeleteCall cs.
Proof.
  revert h. induction cs as [|call cs IH]; intros h.
  - cbn. rewrite !orb_false_r. auto.
  - change (replay (call :: cs) h) with (replay cs (replay [call] h)).
    destruct (IH (replay [call] h)) as (-> & -> & ->).
    destruct call, h as [a d u]; cbn; rewrite ?orb_true_r, ?orb_false_r;
      auto.
Qed.

(** ** A cache behind a cache *)

Lemma replay_deliverAll {H : Type} `{!cache.ResourceEventHandler H}
  (cs : list Call) (c : NodeWeightCache H) :
  replay cs c = deliverAll (map callEvent cs) c.
Proof.
  revert c. induction cs as [|call cs IH]; intros c; [reflexivity|].
  change (replay (call :: cs) c) with (replay cs (replay [call] c)).
  rewrite IH. destruct call; reflexivity.
Qed.

Lemma tableStep_deleteCalls (key : string) (dweight : N) (obj : Object)
  (m : gmap string N) :
  fold_left (fun m ev => tableStep key dweight ev m)
    (map callEvent (deleteCalls obj)) m
  = deleteTable obj m.
Proof.
  revert m. induction obj as [| | |k inner IH]; intros m; try reflexivity.
  cbn [deleteCalls]. rewrite map_app, fold_left_app, IH. cbn.
  apply deleteTable_idemp.
Qed.

Lemma tableStep_eventCalls (key : string) (dweight : N) (evs : list Event)
  (m : gmap string N) :
  fold_left (fun m ev => tableStep key dweight ev m)
    (map callEvent (concat (map eventCalls evs))) m
  = fold_left (fun m ev => tableStep key dweight ev m) evs m.
Proof.
  revert m. induction evs as [|ev evs IH]; intros m; [reflexivity|].
  cbn [map concat fold_left]. rewrite map_app, fold_left_app, IH. f_equal.
  destruct ev as [obj|oldObj newObj|obj]; try reflexivity.
  apply tableStep_deleteCalls.
Qed.

(** X19. A cache that is the next handler of another cache, with the same
    key, default and table, has the same table as the outer one after any
    events delivered to the outer one, and answers [GetWeightOfNode] alike:
    the repeated [OnDelete] calls of a wrapped delete do not show in it. *)
Theorem chained_caches {H : Type} `{!cache.ResourceEventHandler H}
  (outer : NodeWeightCache (NodeWeightCache H)) (inner : NodeWeightCache H)
  (evs : list Event) (name : string) :
  Next outer = Some inner ->
  NodeWeightAnnotation inner = NodeWeightAnnotation outer ->
  DefaultNodeWeight inner = DefaultNodeWeight outer ->
  nodeWeights inner = nodeWeights outer ->
  exists inner',
    Next (deliverAll evs outer) = Some inner'
    /\ nodeWeights inner' = nodeWeights (deliverAll evs outer)
    /\ GetWeightOfNode inner' name =
       GetWeightOfNode (deliverAll evs outer) name.
Proof.
  intros Hn Hk Hd Hm.
  exists (replay (concat (map eventCalls evs)) inner).
  split; [rewrite deliverAll_forward, Hn; reflexivity|].
  assert (Ht : nodeWeights (replay (concat (map eventCalls evs)) inner) =
               nodeWeights (deliverAll evs outer)).
  { rewrite replay_deliverAll, !deliverAll_table, tableStep_eventCalls.
    rewrite Hk, Hd, Hm. reflexivity. }
  split; [exact Ht|]. unfold GetWeightOfNode. rewrite Ht.
  rewrite replay_deliverAll.
  destruct (deliverAll_config (map callEvent (concat (map eventCalls evs)))
              inner) as [_ ->].
  destruct (deliverAll_config evs outer) as [_ ->]. rewrite Hd. reflexivity.
Qed.

Lemma chained_caches_witness :
  let node1 := Scenario.node "node1" Scenario.wa "5" in
  let evs :=
    [Add (NodePtr node1);
     Add (NodePtr (Scenario.node "node2" Scenario.wa "7"));
     Delete (DeletedFinalStateUnknown "node1" (NodePtr node1))] in
  let inner := NewNodeWeightCache (H := TestEventHandler) Scenario.wa 1 in
  let outer := setNext (Some inner) (NewNodeWeightCache Scenario.wa 1) in
  exists inner',
    Next (deliverAll evs outer) = Some inner'
    /\ nodeWeights inner' = nodeWeights (deliverAll evs outer)
    /\ GetWeightOfNode inner' "node2" =
       GetWeightOfNode (deliverAll evs outer) "node2".
Proof.
  intros node1 evs inner outer.
  apply (chained_caches outer inner evs "node2"); reflexivity.
Defined.
